(** * Route extraction of scripts/write-api-docs.js

    A shallow embedding of the tree matcher ([find], [match]), the type
    assertion ([assertType]), the property extractor ([findProperty]) and
    the route model builder ([findReturnedData], [findRouteAuthentication],
    [findRouteHandler], ...) of [scripts/write-api-docs.js], together with
    the properties that the natural-language specification states of them. *)

From Stdlib Require Import String Ascii ZArith List Bool Arith Lia.
From Stdlib Require DecimalNat DecimalString.
Import ListNotations.

Open Scope string_scope.
Open Scope list_scope.

(* ================================================================== *)
(** * JavaScript values *)
(* ================================================================== *)

(** A JavaScript number as far as the program looks at it: positions
    ([start], [end], [line], [column]) and numeric literals are compared
    with [===] and printed inside messages.  [NaN] is kept apart because
    it is the one number that is not [===] to itself. *)
Inductive number :=
| Finite (z : Z)
| NaN.

(** The values found in a parsed tree.  An object is the ordered list of
    its own enumerable properties, in the order [Object.keys] lists them;
    an array is the list of its elements.  A parsed tree is finite and
    shares no node, which is what an inductive type gives. *)
#[warnings="-register-all"]
Inductive value :=
| JUndefined
| JNull
| JBool (b : bool)
| JNum (n : number)
| JStr (s : string)
| JArr (elements : list value)
| JObj (fields : list (string * value)).

(** What a [throw] carries.  [TypeError] is the error built by [fail];
    [EngineError] stands for the error raised by the engine itself when a
    property of [undefined] or [null] is read or a non-function is called
    (its text is engine specific and not modelled). *)
Inductive thrown :=
| TypeError (debugFriendlyMessage : string)
| EngineError.

Inductive result (A : Type) :=
| Ok (a : A)
| Throw (e : thrown).

Arguments Ok {A} a.
Arguments Throw {A} e.

Definition bind {A B : Type} (m : result A) (k : A -> result B) : result B :=
  match m with
  | Ok a => k a
  | Throw e => Throw e
  end.

Notation "x <- m ;; k" := (bind m (fun x => k))
  (at level 61, m at next level, right associativity).
Notation "m ;;; k" := (bind m (fun _ => k))
  (at level 61, right associativity).

(** A template literal: the concatenation of its pieces. *)
Definition template (parts : list string) : string :=
  String.concat EmptyString parts.

Definition dquote : string := String (ascii_of_nat 34) EmptyString.
Definition newline : string := String (ascii_of_nat 10) EmptyString.

(** Truthiness, as [if (x)], [! x] and [x && y] test it. *)
Definition truthy (v : value) : bool :=
  match v with
  | JUndefined | JNull => false
  | JBool b => b
  | JNum (Finite z) => negb (z =? 0)%Z
  | JNum NaN => false
  | JStr s => negb (s =? EmptyString)%string
  | JArr _ | JObj _ => true
  end.

(** [a === b].  Two structural values are [===] only when they are the
    same object; the program compares a structural value only with values
    met at another place of the tree (or with a literal of its own), which
    are other objects. *)
Definition strict_equals (a b : value) : bool :=
  match a, b with
  | JUndefined, JUndefined => true
  | JNull, JNull => true
  | JBool x, JBool y => Bool.eqb x y
  | JNum (Finite x), JNum (Finite y) => (x =? y)%Z
  | JStr x, JStr y => (x =? y)%string
  | _, _ => false
  end.

(** [String(n)] for the numbers of a parsed tree that the program prints:
    positions and integer literals, integers below [1e21] in magnitude,
    which JavaScript prints in full in base ten. *)
Definition number_to_string (n : number) : string :=
  match n with
  | Finite z => DecimalString.NilZero.string_of_int (Z.to_int z)
  | NaN => "NaN"
  end.

(** [String(v)], the conversion a template literal, [RegExp.test] and
    [Array.join] apply. *)
Fixpoint to_string (v : value) : string :=
  match v with
  | JUndefined => "undefined"
  | JNull => "null"
  | JBool true => "true"
  | JBool false => "false"
  | JNum n => number_to_string n
  | JStr s => s
  | JArr elements =>
      String.concat ","
        (map (fun e => match e with
                       | JUndefined | JNull => EmptyString
                       | _ => to_string e
                       end) elements)
  | JObj _ => "[object Object]"
  end.

(** [array.join(separator)]: [undefined] and [null] print as nothing. *)
Definition join (separator : string) (l : list value) : string :=
  String.concat separator
    (map (fun e => match e with
                   | JUndefined | JNull => EmptyString
                   | _ => to_string e
                   end) l).

(** The key of the [i]-th element of an array. *)
Definition index_key (i : nat) : string :=
  DecimalString.NilEmpty.string_of_uint (Nat.to_uint i).

Definition array_index (k : string) : option nat :=
  match DecimalString.NilEmpty.uint_of_string k with
  | Some d => if (index_key (Nat.of_uint d) =? k)%string
              then Some (Nat.of_uint d) else None
  | None => None
  end.

(** [Object.keys(v)] for a [v] that is neither [undefined] nor [null]. *)
Definition own_keys (v : value) : list string :=
  match v with
  | JArr elements => map index_key (seq 0 (List.length elements))
  | JObj fields => map fst fields
  | JStr s => map index_key (seq 0 (String.length s))
  | _ => []
  end.

Fixpoint lookup (k : string) (fields : list (string * value)) : value :=
  match fields with
  | [] => JUndefined
  | (k', v) :: rest => if (k =? k')%string then v else lookup k rest
  end.

(** [v[k]] and [v.k] for a [v] that is neither [undefined] nor [null].
    Only own properties are modelled: no name the program reads ([type],
    [body], [argument], [name], [init], [elements], [properties], [value],
    [loc], [start], [line], [column], [expression], [right]) is inherited
    from a prototype. *)
Definition read (v : value) (k : string) : value :=
  match v with
  | JObj fields => lookup k fields
  | JArr elements =>
      match array_index k with
      | Some i => nth i elements JUndefined
      | None => if (k =? "length")%string
                then JNum (Finite (Z.of_nat (List.length elements)))
                else JUndefined
      end
  | JStr s =>
      match array_index k with
      | Some i => match String.get i s with
                  | Some c => JStr (String c EmptyString)
                  | None => JUndefined
                  end
      | None => if (k =? "length")%string
                then JNum (Finite (Z.of_nat (String.length s)))
                else JUndefined
      end
  | _ => JUndefined
  end.

(** Reading a property throws on [undefined] and [null]. *)
Definition get (v : value) (k : string) : result value :=
  match v with
  | JUndefined | JNull => Throw EngineError
  | _ => Ok (read v k)
  end.

Definition Object_keys (v : value) : result (list string) :=
  match v with
  | JUndefined | JNull => Throw EngineError
  | _ => Ok (own_keys v)
  end.

(** The values of the own properties, in key order. *)
Definition values (v : value) : list value :=
  match v with
  | JArr elements => elements
  | JObj fields => map snd fields
  | _ => []
  end.

Fixpoint unique (keys : list string) : bool :=
  match keys with
  | [] => true
  | k :: rest => negb (existsb (String.eqb k) rest) && unique rest
  end.

(** An object has each key once.  [distinct_keys] says so of a value
    itself, [well_formed] of the value and of all it contains. *)
Definition distinct_keys (v : value) : bool :=
  match v with
  | JObj fields => unique (map fst fields)
  | _ => true
  end.

Fixpoint well_formed (v : value) : bool :=
  match v with
  | JArr elements => forallb well_formed elements
  | JObj fields =>
      unique (map fst fields) && forallb (fun e => well_formed (snd e)) fields
  | _ => true
  end.

Fixpoint depth (v : value) : nat :=
  match v with
  | JArr elements => S (fold_right (fun e d => Nat.max (depth e) d) 0 elements)
  | JObj fields =>
      S (fold_right (fun e d => Nat.max (depth (snd e)) d) 0 fields)
  | _ => 0
  end.

(* ================================================================== *)
(** * The tree matcher *)
(* ================================================================== *)

(** [isObject]: [node && typeof node === 'object']. *)
Definition isObject (node : value) : bool :=
  match node with
  | JArr _ | JObj _ => true
  | _ => false
  end.

(** The third argument of [find]; [options || {}] makes a missing one the
    record with both flags unset. *)
Record options := { array : bool; recursive : bool }.

Definition no_options : options := {| array := false; recursive := false |}.
Definition into_arrays : options := {| array := true; recursive := false |}.
Definition recursively : options := {| array := false; recursive := true |}.

(** [match], by recursion on the node.  For a structural node the source
    runs [Object.keys(criteria).every(criteriaKey =>
    Object.keys(node).some(nodeKey => match(node[nodeKey],
    criteria[criteriaKey])))]; [match_unfold] below gives that equation,
    and [match_run] transcribes it key by key. *)
Fixpoint match_ (node criteria : value) {struct node} : bool :=
  match node with
  | JArr elements =>
      if negb (isObject criteria) then false
      else forallb (fun cv => existsb (fun nv => match_ nv cv) elements)
                   (values criteria)
  | JObj fields =>
      if negb (isObject criteria) then false
      else forallb (fun cv => existsb (fun e => match_ (snd e) cv) fields)
                   (values criteria)
  | _ => strict_equals node criteria
  end.

(** [find], by recursion on the node; [reduce] with [concat] from the
    empty array is a left fold with append. *)
Fixpoint find (node criteria : value) (opts : options) {struct node}
  : list value :=
  if match_ node criteria then [node]
  else
    match node with
    | JArr elements =>
        if array opts then
          fold_left (fun results property =>
                       results ++ find property criteria opts) elements []
        else if recursive opts then
          (* the keys of an array are its indices *)
          fold_left (fun results property =>
                       results ++ find property criteria opts) elements []
        else []
    | JObj fields =>
        if recursive opts then
          fold_left (fun results e =>
                       results ++ find (snd e) criteria opts) fields []
        else []
    | _ => []
    end.

(** ** The matcher, operation by operation

    The same two functions with every JavaScript operation that can throw
    written out.  The recursion follows the reads [node[key]], so it is
    bounded by a number of nested calls, the fuel; [None] says that the
    fuel given was not enough, and is no behaviour of the program. *)

Definition run (A : Type) : Type := option (result A).

Definition bind_run {A B : Type} (m : run A) (k : A -> run B) : run B :=
  match m with
  | Some (Ok a) => k a
  | Some (Throw e) => Some (Throw e)
  | None => None
  end.

Notation "x <~ m ;; k" := (bind_run m (fun x => k))
  (at level 61, m at next level, right associativity).

Fixpoint every {A : Type} (l : list A) (f : A -> run bool) : run bool :=
  match l with
  | [] => Some (Ok true)
  | x :: rest => b <~ f x ;; if b then every rest f else Some (Ok false)
  end.

Fixpoint some {A : Type} (l : list A) (f : A -> run bool) : run bool :=
  match l with
  | [] => Some (Ok false)
  | x :: rest => b <~ f x ;; if b then Some (Ok true) else some rest f
  end.

Fixpoint reduce {A B : Type} (l : list A) (f : B -> A -> run B) (init : B)
  : run B :=
  match l with
  | [] => Some (Ok init)
  | x :: rest => acc <~ f init x ;; reduce rest f acc
  end.

Fixpoint match_run (fuel : nat) (node criteria : value) : run bool :=
  match fuel with
  | O => None
  | S fuel' =>
      if negb (isObject node) then
        if strict_equals node criteria then Some (Ok true)
        else Some (Ok false)
      else if negb (isObject criteria) then Some (Ok false)
      else
        criteriaKeys <~ Some (Object_keys criteria) ;;
        every criteriaKeys (fun criteriaKey =>
          nodeKeys <~ Some (Object_keys node) ;;
          some nodeKeys (fun nodeKey =>
            nodeValue <~ Some (get node nodeKey) ;;
            criteriaValue <~ Some (get criteria criteriaKey) ;;
            match_run fuel' nodeValue criteriaValue))
  end.

Definition isArray (node : value) : bool :=
  match node with
  | JArr _ => true
  | _ => false
  end.

Fixpoint find_run (fuel : nat) (node criteria : value) (opts : options)
  : run (list value) :=
  match fuel with
  | O => None
  | S fuel' =>
      matched <~ match_run fuel' node criteria ;;
      if matched then Some (Ok [node])
      else if isArray node && array opts then
        reduce (values node) (fun results property =>
          found <~ find_run fuel' property criteria opts ;;
          Some (Ok (results ++ found))) []
      else if isObject node && recursive opts then
        keys <~ Some (Object_keys node) ;;
        reduce keys (fun results key =>
          child <~ Some (get node key) ;;
          found <~ find_run fuel' child criteria opts ;;
          Some (Ok (results ++ found))) []
      else Some (Ok [])
  end.

(* ================================================================== *)
(** * Failure and type assertions *)
(* ================================================================== *)

Definition FUNCTION_EXPRESSION_TYPES : list string :=
  ["FunctionExpression"; "ArrowFunctionExpression"].
Definition ARRAY_TYPES : list string := ["ArrayExpression"].
Definition RETURN_TYPES : list string := ["ReturnStatement"].
Definition OBJECT_TYPES : list string := ["ObjectExpression"].
Definition LITERAL_TYPES : list string := ["Literal"].
Definition IDENTIFIER_TYPES : list string := ["Identifier"].

(** [fail (message, filePath, lineNumber)]; an argument left out is
    [undefined]. *)
Definition fail {A : Type} (message : string) (filePath lineNumber : value)
  : result A :=
  Throw (TypeError
    (if truthy filePath then
       template
         [ template ["Error parsing "; dquote; to_string filePath; dquote];
           (if truthy lineNumber
            then template [" at line "; to_string lineNumber]
            else EmptyString);
           template [":"; newline; message] ]
     else message)).

(** [types.has(nodeType)] on a set of strings. *)
Definition has (types : list string) (nodeType : value) : bool :=
  match nodeType with
  | JStr s => existsb (String.eqb s) types
  | _ => false
  end.

(** [Array.from(types).join(',')]. *)
Definition type_names (types : list string) : string :=
  String.concat "," types.

Definition assertType (node : value) (types : list string) (filePath : value)
  : result unit :=
  if negb (truthy node) then
    fail (template ["Expected type ["; type_names types; "], found nothing"])
         filePath JUndefined
  else
    nodeType <- get node "type" ;;
    if negb (has types nodeType) then
      loc <- get node "loc" ;;
      start <- get loc "start" ;;
      line <- get start "line" ;;
      loc' <- get node "loc" ;;
      start' <- get loc' "start" ;;
      column <- get start' "column" ;;
      fail (template ["Expected type ["; type_names types; "], found ";
                      dquote; to_string nodeType; dquote; " at column ";
                      dquote; to_string column; dquote])
           filePath line
    else Ok tt.

(** [list.length] as the number a template literal prints. *)
Definition length_of (l : list value) : value :=
  JNum (Finite (Z.of_nat (List.length l))).

(** [list[0]]. *)
Definition first (l : list value) : value := hd JUndefined l.

(** A method of arrays ([map], [forEach]) called on [v]: anything but an
    array has no such method, and the call throws. *)
Definition as_array (v : value) : result (list value) :=
  match v with
  | JArr elements => Ok elements
  | _ => Throw EngineError
  end.

Fixpoint map_result {A B : Type} (f : A -> result B) (l : list A)
  : result (list B) :=
  match l with
  | [] => Ok []
  | x :: rest => y <- f x ;; ys <- map_result f rest ;; Ok (y :: ys)
  end.

Definition try_catch {A : Type} (body : result A) (handler : thrown -> result A)
  : result A :=
  match body with
  | Ok a => Ok a
  | Throw error => handler error
  end.

(* ================================================================== *)
(** * The exported function and the data it returns *)
(* ================================================================== *)

Definition exportCriteria : value :=
  JObj [ ("type", JStr "ExpressionStatement");
         ("expression",
          JObj [ ("type", JStr "AssignmentExpression");
                 ("left",
                  JObj [ ("type", JStr "MemberExpression");
                         ("object", JObj [ ("type", JStr "Identifier");
                                           ("name", JStr "module") ]);
                         ("property",
                          JObj [ ("type", JStr "Identifier");
                                 ("name", JStr "exports") ]) ]) ]) ].

Definition findExportedFunction (node filePath : value) : result value :=
  let exported := find node exportCriteria recursively in
  (if negb (List.length exported =? 1)%nat then
     fail (template ["Expected 1 export, found ";
                     to_string (length_of exported)])
          filePath JUndefined
   else Ok tt) ;;;
  expression <- get (first exported) "expression" ;;
  exportedFunction <- get expression "right" ;;
  assertType exportedFunction FUNCTION_EXPRESSION_TYPES filePath ;;;
  get exportedFunction "body".

Definition returnCriteria : value :=
  JObj [ ("type", JStr "ReturnStatement") ].

Definition declaratorCriteria (name : value) : value :=
  JObj [ ("type", JStr "VariableDeclarator");
         ("id", JObj [ ("type", JStr "Identifier"); ("name", name) ]) ].

(** The second half of [findReturnedData], from the test of
    [returnedData.type] on. *)
Definition resolveReturnedData (functionNode returnedData filePath : value)
  : result value :=
  returnedType <- get returnedData "type" ;;
  returnedData <-
    (if strict_equals returnedType (JStr "Identifier") then
       name <- get returnedData "name" ;;
       let routeDefinitions :=
         find functionNode (declaratorCriteria name) recursively in
       (if negb (List.length routeDefinitions =? 1)%nat then
          fail (template ["Expected 1 set of route definitions, found ";
                          to_string (length_of routeDefinitions)])
               filePath JUndefined
        else Ok tt) ;;;
       get (first routeDefinitions) "init"
     else Ok returnedData) ;;
  assertType returnedData ARRAY_TYPES filePath ;;;
  get returnedData "elements".

(** [findReturnedData].  In the branch of a body that is not a block the
    variable [returnedData] is still unassigned when it is handed to
    [assertType]. *)
Definition findReturnedData (functionNode filePath : value) : result value :=
  functionType <- get functionNode "type" ;;
  returnedData <-
    (if strict_equals functionType (JStr "BlockStatement") then
       body <- get functionNode "body" ;;
       let returned := find body returnCriteria into_arrays in
       (if negb (List.length returned =? 1)%nat then
          fail (template ["Expected 1 return statement, found ";
                          to_string (length_of returned)])
               filePath JUndefined
        else Ok tt) ;;;
       get (first returned) "argument"
     else
       assertType JUndefined RETURN_TYPES filePath ;;;
       get functionNode "argument") ;;
  resolveReturnedData functionNode returnedData filePath.

(* ================================================================== *)
(** * Property extractors *)
(* ================================================================== *)

Definition propertyCriteria (key : string) : value :=
  JObj [ ("type", JStr "Property");
         ("kind", JStr "init");
         ("key", JObj [ ("type", JStr "Identifier"); ("name", JStr key) ]) ].

Definition findProperty (node : value) (key : string) (types : list string)
           (filePath : value) : result value :=
  properties <- get node "properties" ;;
  let found := first (find properties (propertyCriteria key) into_arrays) in
  if truthy found then
    foundValue <- get found "value" ;;
    assertType foundValue types filePath ;;;
    get found "value"
  else Ok JUndefined.

Definition findRoutePath (route filePath : value) : result value :=
  found <- findProperty route "path" LITERAL_TYPES filePath ;;
  get found "value".

Definition findRouteMethod (route filePath : value) : result value :=
  found <- findProperty route "method" LITERAL_TYPES filePath ;;
  get found "value".

Definition findRouteConfig (route filePath : value) : result value :=
  findProperty route "config" OBJECT_TYPES filePath.

Definition findRouteValidation (routeConfig filePath : value) : result value :=
  findProperty routeConfig "validate" OBJECT_TYPES filePath.

Definition findRouteResponse (routeConfig filePath : value) : result value :=
  findProperty routeConfig "response" OBJECT_TYPES filePath.

Definition findRouteHandler (route filePath : value) : result value :=
  try_catch
    (found <- findProperty route "handler" FUNCTION_EXPRESSION_TYPES filePath ;;
     get found "value")
    (fun error =>
       found <- findProperty route "handler" IDENTIFIER_TYPES filePath ;;
       handlerName <- get found "name" ;;
       Ok JUndefined).

(* ================================================================== *)
(** * The authentication strategy normalizer *)
(* ================================================================== *)

(** [SESSION_TOKEN_STRATEGY.test(strategy)] and
    [KEY_FETCH_TOKEN_STRATEGY.test(strategy)]: an anchored pattern made of
    plain letters is a prefix test on [String(strategy)]. *)
Definition marshallStrategy (strategy : value) : value :=
  if prefix "sessionToken" (to_string strategy) then JStr "sessionToken"
  else if prefix "keyFetchToken" (to_string strategy) then JStr "keyFetchToken"
  else strategy.

(** [array.indexOf(v)], with [===] on the elements. *)
Fixpoint indexOf (l : list value) (v : value) : Z :=
  match l with
  | [] => -1
  | x :: rest =>
      if strict_equals x v then 0
      else let i := indexOf rest v in
           if (i =? -1)%Z then -1 else (i + 1)%Z
  end.

(** The [reduce] of [findRouteAuthentication]: push what is not there yet. *)
Definition dedupe (strategies : list value) : list value :=
  fold_left (fun deduped strategy =>
               if (indexOf deduped strategy =? -1)%Z
               then deduped ++ [strategy]
               else deduped)
            strategies [].

Definition authentication (optional : bool) (type : value) : value :=
  JObj [ ("optional", JBool optional); ("type", type) ].

Definition findRouteAuthentication (routeConfig filePath : value)
  : result value :=
  routeAuthentication <-
    findProperty routeConfig "auth" OBJECT_TYPES filePath ;;
  if truthy routeAuthentication then
    mode <- findProperty routeAuthentication "mode" LITERAL_TYPES filePath ;;
    optional <-
      (if truthy mode then
         modeValue <- get mode "value" ;;
         if strict_equals modeValue (JStr "try") then Ok true
         else
           modeValue' <- get mode "value" ;;
           Ok (strict_equals modeValue' (JStr "optional"))
       else Ok false) ;;
    strategies <-
      findProperty routeAuthentication "strategies" ARRAY_TYPES filePath ;;
    type <-
      (if truthy strategies then
         elements <- get strategies "elements" ;;
         elements <- as_array elements ;;
         marshalled <-
           map_result (fun strategy =>
                         assertType strategy LITERAL_TYPES filePath ;;;
                         strategyValue <- get strategy "value" ;;
                         Ok (marshallStrategy strategyValue))
                      elements ;;
         Ok (JStr (join ", " (dedupe marshalled)))
       else
         strategy <-
           findProperty routeAuthentication "strategy" LITERAL_TYPES filePath ;;
         if truthy strategy then
           strategyValue <- get strategy "value" ;;
           Ok (marshallStrategy strategyValue)
         else Ok JUndefined) ;;
    (if negb (truthy type) then
       loc <- get routeAuthentication "loc" ;;
       start <- get loc "start" ;;
       line <- get start "line" ;;
       fail "Missing authentication strategy" filePath line
     else Ok tt) ;;;
    Ok (authentication optional type)
  else Ok JUndefined.

(* ================================================================== *)
(** * One route, one file *)
(* ================================================================== *)

(** What the loop of [generateOutput] extracts from one route before it
    prints it. *)
Record descriptor := {
  routeMethod : value;
  routePath : value;
  routeAuthentication : value;
  routeValidation : value;
  routeResponse : value;
  routeHandler : value
}.

(** The body of [routes.forEach], up to the printing. *)
Definition describeRoute (filePath route : value) : result descriptor :=
  assertType route OBJECT_TYPES filePath ;;;
  method <- findRouteMethod route filePath ;;
  path <- findRoutePath route filePath ;;
  routeConfig <- findRouteConfig route filePath ;;
  extracted <-
    (if truthy routeConfig then
       authentication <- findRouteAuthentication routeConfig filePath ;;
       validation <- findRouteValidation routeConfig filePath ;;
       response <- findRouteResponse routeConfig filePath ;;
       Ok (authentication, validation, response)
     else Ok (JUndefined, JUndefined, JUndefined)) ;;
  handler <- findRouteHandler route filePath ;;
  Ok {| routeMethod := method;
        routePath := path;
        routeAuthentication := fst (fst extracted);
        routeValidation := snd (fst extracted);
        routeResponse := snd extracted;
        routeHandler := handler |}.

(** The routes of an exported function body. *)
Definition describeRoutes (functionNode filePath : value)
  : result (list descriptor) :=
  routes <- findReturnedData functionNode filePath ;;
  routes <- as_array routes ;;
  map_result (describeRoute filePath) routes.

(** The routes of a file: the part of [generateOutput] that reads the
    tree. *)
Definition describeFile (ast filePath : value) : result (list descriptor) :=
  exportedFunction <- findExportedFunction ast filePath ;;
  describeRoutes exportedFunction filePath.

(* ================================================================== *)
(** * The words of the specification

    What the specification says of names and bindings, written down on
    its own so that the code can be compared with it. *)
(* ================================================================== *)

(** The canonical token of a strategy name. *)
Definition canonical (name : string) : string :=
  if prefix "sessionToken" name then "sessionToken"
  else if prefix "keyFetchToken" name then "keyFetchToken"
  else name.

(** The names without repetition, each at its first occurrence. *)
Fixpoint first_occurrences (names : list string) : list string :=
  match names with
  | [] => []
  | name :: rest =>
      name :: filter (fun other => negb (other =? name)%string)
                     (first_occurrences rest)
  end.

(** [name] is none of the names [seen]. *)
Definition unseen (seen : list string) (name : string) : bool :=
  negb (existsb (fun other => (name =? other)%string) seen).

(** The mode of an authentication makes it optional. *)
Definition optional_mode (mode : value) : bool :=
  truthy mode &&
  (strict_equals (read mode "value") (JStr "try") ||
   strict_equals (read mode "value") (JStr "optional")).

(** A strategy given as a string literal. *)
Definition names_strategy (element : value) (name : string) : Prop :=
  truthy element = true /\
  read element "type" = JStr "Literal" /\
  read element "value" = JStr name.

(** All the nodes of a tree, the tree itself first. *)
Fixpoint nodes (v : value) : list value :=
  v :: match v with
       | JArr elements => flat_map nodes elements
       | JObj fields => flat_map (fun e => nodes (snd e)) fields
       | _ => []
       end.

(** [node] is a variable declarator whose [id] is the identifier [name]. *)
Definition binds (name : string) (node : value) : bool :=
  strict_equals (read node "type") (JStr "VariableDeclarator") &&
  strict_equals (read (read node "id") "type") (JStr "Identifier") &&
  strict_equals (read (read node "id") "name") (JStr name).

(** The declarators of a tree that bind [name]. *)
Definition bindings (name : string) (tree : value) : list value :=
  filter (binds name) (nodes tree).

(** [node] is a property whose key is the identifier [name]. *)
Definition property_named (name : string) (node : value) : bool :=
  strict_equals (read node "type") (JStr "Property") &&
  strict_equals (read (read node "key") "type") (JStr "Identifier") &&
  strict_equals (read (read node "key") "name") (JStr name).

(** The properties of an object node that have the key [name]. *)
Definition properties_named (name : string) (object : value) : list value :=
  filter (property_named name) (values (read object "properties")).

(** [node.k = v] for an attribute the node has. *)
Fixpoint replace (k : string) (v : value) (fields : list (string * value))
  : list (string * value) :=
  match fields with
  | [] => []
  | (k', v') :: rest =>
      if (k =? k')%string then (k, v) :: rest
      else (k', v') :: replace k v rest
  end.

Definition with_attribute (k : string) (v : value) (node : value) : value :=
  match node with
  | JObj fields => JObj (replace k v fields)
  | _ => node
  end.

(** The body [functionNode], whose statements are [before], [ret] and
    [after], with [arrayLiteral] written as the argument of [ret]. *)
Definition inlined (functionNode : value) (before : list value) (ret : value)
           (after : list value) (arrayLiteral : value) : value :=
  with_attribute "body"
    (JArr (before ++ with_attribute "argument" arrayLiteral ret :: after))
    functionNode.

(* ================================================================== *)
(** * Parsed trees

    The nodes the parser builds with [locations: true], with their
    attributes in the order the parser sets them.  The examples are
    one-line sources, so every position is on line 1 and its column is its
    offset. *)
(* ================================================================== *)

Definition num (z : Z) : value := JNum (Finite z).

Definition position (line column : Z) : value :=
  JObj [ ("line", num line); ("column", num column) ].

Definition Node (type : string) (start end_ : Z)
           (attributes : list (string * value)) : value :=
  JObj (("type", JStr type) :: ("start", num start) :: ("end", num end_)
        :: ("loc", JObj [ ("start", position 1 start);
                          ("end", position 1 end_) ])
        :: attributes).

Definition Identifier (start end_ : Z) (name : string) : value :=
  Node "Identifier" start end_ [ ("name", JStr name) ].

Definition Literal (start end_ : Z) (v : value) (raw : string) : value :=
  Node "Literal" start end_ [ ("value", v); ("raw", JStr raw) ].

Definition Property (start end_ : Z) (computed : bool) (key v : value)
  : value :=
  Node "Property" start end_
       [ ("method", JBool false); ("shorthand", JBool false);
         ("computed", JBool computed); ("key", key); ("value", v);
         ("kind", JStr "init") ].

Definition ObjectExpression (start end_ : Z) (properties : list value)
  : value :=
  Node "ObjectExpression" start end_ [ ("properties", JArr properties) ].

Definition ArrayExpression (start end_ : Z) (elements : list value) : value :=
  Node "ArrayExpression" start end_ [ ("elements", JArr elements) ].

Definition BlockStatement (start end_ : Z) (body : list value) : value :=
  Node "BlockStatement" start end_ [ ("body", JArr body) ].

Definition ReturnStatement (start end_ : Z) (argument : value) : value :=
  Node "ReturnStatement" start end_ [ ("argument", argument) ].

Definition VariableDeclarator (start end_ : Z) (id init : value) : value :=
  Node "VariableDeclarator" start end_ [ ("id", id); ("init", init) ].

Definition VariableDeclaration (start end_ : Z) (declarations : list value)
           (kind : string) : value :=
  Node "VariableDeclaration" start end_
       [ ("declarations", JArr declarations); ("kind", JStr kind) ].

Definition FunctionExpression (start end_ : Z) (body : value) : value :=
  Node "FunctionExpression" start end_
       [ ("id", JNull); ("generator", JBool false);
         ("expression", JBool false); ("params", JArr []); ("body", body) ].

Definition ArrowFunctionExpression (start end_ : Z) (body : value) : value :=
  Node "ArrowFunctionExpression" start end_
       [ ("id", JNull); ("generator", JBool false);
         ("expression", JBool true); ("params", JArr []); ("body", body) ].

Definition MemberExpression (start end_ : Z) (object property : value)
  : value :=
  Node "MemberExpression" start end_
       [ ("object", object); ("property", property);
         ("computed", JBool false) ].

Definition AssignmentExpression (start end_ : Z) (left right : value)
  : value :=
  Node "AssignmentExpression" start end_
       [ ("operator", JStr "="); ("left", left); ("right", right) ].

Definition ExpressionStatement (start end_ : Z) (expression : value) : value :=
  Node "ExpressionStatement" start end_ [ ("expression", expression) ].

Definition Program (start end_ : Z) (body : list value) : value :=
  Node "Program" start end_
       [ ("body", JArr body); ("sourceType", JStr "script") ].

(** The path of the file in the messages of the examples. *)
Definition routes_js : value := JStr "lib/routes/example.js".

(** An inline handler,
    from column 116 of [inline_file]:
<<
function(){}
>> *)
Definition inline_handler : value :=
  FunctionExpression 116 128 (BlockStatement 126 128 []).

(** A route with one strategy and an inline handler,
    from column 34 of [inline_file]:
<<
{method:'GET',path:'/foo',config:{auth:{strategy:'sessionToken_oldsync'}},handler:function(){}}
>> *)
Definition inline_route : value :=
  ObjectExpression 34 129
    [ (Property 35 47 false
        (Identifier 35 41 "method")
        (Literal 42 47 (JStr "GET") "'GET'"));
      (Property 48 59 false
        (Identifier 48 52 "path")
        (Literal 53 59 (JStr "/foo") "'/foo'"));
      (Property 60 107 false
        (Identifier 60 66 "config")
        (ObjectExpression 67 107
          [ (Property 68 106 false
              (Identifier 68 72 "auth")
              (ObjectExpression 73 106
                [ (Property 74 105 false
                    (Identifier 74 82 "strategy")
                    (Literal 83 105
                      (JStr "sessionToken_oldsync")
                      "'sessionToken_oldsync'")) ])) ]));
      (Property 108 128 false (Identifier 108 115 "handler") inline_handler) ].

(** The body of the exported function,
    from column 25 of [inline_file]:
<<
{return [{method:'GET',path:'/foo',config:{auth:{strategy:'sessionToken_oldsync'}},handler:function(){}}];}
>> *)
Definition inline_body : value :=
  BlockStatement 25 132
    [(ReturnStatement 26 131 (ArrayExpression 33 130 [inline_route]))].

(** The example file of the specification:
<<
module.exports=function(){return [{method:'GET',path:'/foo',config:{auth:{strategy:'sessionToken_oldsync'}},handler:function(){}}];}
>> *)
Definition inline_file : value :=
  Program 0 132
    [ (ExpressionStatement 0 132
        (AssignmentExpression 0 132
          (MemberExpression 0 14
            (Identifier 0 6 "module")
            (Identifier 7 14 "exports"))
          (FunctionExpression 15 132 inline_body))) ].

(** An optional authentication with two session token strategies,
    from column 6 of [optional_config]:
<<
{mode:'optional',strategies:['sessionTokenA','sessionTokenB']}
>> *)
Definition optional_auth : value :=
  ObjectExpression 6 68
    [ (Property 7 22 false
        (Identifier 7 11 "mode")
        (Literal 12 22 (JStr "optional") "'optional'"));
      (Property 23 67 false
        (Identifier 23 33 "strategies")
        (ArrayExpression 34 67
          [ (Literal 35 50 (JStr "sessionTokenA") "'sessionTokenA'");
            (Literal 51 66 (JStr "sessionTokenB") "'sessionTokenB'") ])) ].

(** The [config] of a route with that authentication:
<<
{auth:{mode:'optional',strategies:['sessionTokenA','sessionTokenB']}}
>> *)
Definition optional_config : value :=
  ObjectExpression 0 69
    [(Property 1 68 false (Identifier 1 5 "auth") optional_auth)].

(** The body of an exported arrow function: the array of routes itself,
    from column 19 of [arrow_file]:
<<
[{method:'GET',path:'/foo',handler:h}]
>> *)
Definition arrow_body : value :=
  ArrayExpression 19 57
    [ (ObjectExpression 20 56
        [ (Property 21 33 false
            (Identifier 21 27 "method")
            (Literal 28 33 (JStr "GET") "'GET'"));
          (Property 34 45 false
            (Identifier 34 38 "path")
            (Literal 39 45 (JStr "/foo") "'/foo'"));
          (Property 46 55 false
            (Identifier 46 53 "handler")
            (Identifier 54 55 "h")) ]) ].

(** A file that exports an arrow function:
<<
module.exports=()=>[{method:'GET',path:'/foo',handler:h}]
>> *)
Definition arrow_file : value :=
  Program 0 57
    [ (ExpressionStatement 0 57
        (AssignmentExpression 0 57
          (MemberExpression 0 14
            (Identifier 0 6 "module")
            (Identifier 7 14 "exports"))
          (ArrowFunctionExpression 15 57 arrow_body))) ].

(** The body of an exported function that returns the same array,
    from column 25 of [block_file]:
<<
{return [{method:'GET',path:'/foo',handler:h}];}
>> *)
Definition block_body : value :=
  BlockStatement 25 73
    [ (ReturnStatement 26 72
        (ArrayExpression 33 71
          [ (ObjectExpression 34 70
              [ (Property 35 47 false
                  (Identifier 35 41 "method")
                  (Literal 42 47 (JStr "GET") "'GET'"));
                (Property 48 59 false
                  (Identifier 48 52 "path")
                  (Literal 53 59 (JStr "/foo") "'/foo'"));
                (Property 60 69 false
                  (Identifier 60 67 "handler")
                  (Identifier 68 69 "h")) ]) ])) ].

(** A file that exports that function:
<<
module.exports=function(){return [{method:'GET',path:'/foo',handler:h}];}
>> *)
Definition block_file : value :=
  Program 0 73
    [ (ExpressionStatement 0 73
        (AssignmentExpression 0 73
          (MemberExpression 0 14
            (Identifier 0 6 "module")
            (Identifier 7 14 "exports"))
          (FunctionExpression 15 73 block_body))) ].

(** An object with the same key twice:
<<
{a:1,a:2}
>> *)
Definition duplicate_object : value :=
  ObjectExpression 0 9
    [ (Property 1 4 false (Identifier 1 2 "a") (Literal 3 4 (num 1) "1"));
      (Property 5 8 false (Identifier 5 6 "a") (Literal 7 8 (num 2) "2")) ].

(** The array bound to [routes],
    from column 39 of [named_body]:
<<
[{method:'GET',path:'/foo',handler:h}]
>> *)
Definition named_routes : value :=
  ArrayExpression 39 77
    [ (ObjectExpression 40 76
        [ (Property 41 53 false
            (Identifier 41 47 "method")
            (Literal 48 53 (JStr "GET") "'GET'"));
          (Property 54 65 false
            (Identifier 54 58 "path")
            (Literal 59 65 (JStr "/foo") "'/foo'"));
          (Property 66 75 false
            (Identifier 66 73 "handler")
            (Identifier 74 75 "h")) ]) ].

(** The declarator of [routes],
    from column 32 of [named_body]:
<<
routes=[{method:'GET',path:'/foo',handler:h}]
>> *)
Definition named_declarator : value :=
  VariableDeclarator 32 77 (Identifier 32 38 "routes") named_routes.

(** The declaration of [routes],
    from column 26 of [named_body]:
<<
const routes=[{method:'GET',path:'/foo',handler:h}];
>> *)
Definition named_declaration : value :=
  VariableDeclaration 26 78 [named_declarator] "const".

(** The statement that returns [routes] by name,
    from column 78 of [named_body]:
<<
return routes;
>> *)
Definition named_return : value :=
  ReturnStatement 78 92 (Identifier 85 91 "routes").

(** A body that binds the routes to a name and returns the name,
    from column 25 of the file that exports the function:
<<
{const routes=[{method:'GET',path:'/foo',handler:h}];return routes;}
>> *)
Definition named_body : value :=
  BlockStatement 25 93 [named_declaration; named_return].

(** The same with a second variable initialised with [routes],
    from column 25 of the file that exports the function:
<<
{const routes=[{method:'GET',path:'/foo',handler:h}];const alias=routes;return routes;}
>> *)
Definition alias_body : value :=
  BlockStatement 25 112
    [ (VariableDeclaration 26 78
        [ (VariableDeclarator 32 77
            (Identifier 32 38 "routes")
            (ArrayExpression 39 77
              [ (ObjectExpression 40 76
                  [ (Property 41 53 false
                      (Identifier 41 47 "method")
                      (Literal 48 53 (JStr "GET") "'GET'"));
                    (Property 54 65 false
                      (Identifier 54 58 "path")
                      (Literal 59 65 (JStr "/foo") "'/foo'"));
                    (Property 66 75 false
                      (Identifier 66 73 "handler")
                      (Identifier 74 75 "h")) ]) ])) ]
        "const");
      (VariableDeclaration 78 97
        [ (VariableDeclarator 84 96
            (Identifier 84 89 "alias")
            (Identifier 90 96 "routes")) ]
        "const");
      (ReturnStatement 97 111 (Identifier 104 110 "routes")) ].

(** The body of [alias_body] with the array written in the return statement,
    from column 25 of the file that exports the function:
<<
{const routes=[{method:'GET',path:'/foo',handler:h}];const alias=routes;return [{method:'GET',path:'/foo',handler:h}];}
>> *)
Definition alias_inline_body : value :=
  BlockStatement 25 144
    [ (VariableDeclaration 26 78
        [ (VariableDeclarator 32 77
            (Identifier 32 38 "routes")
            (ArrayExpression 39 77
              [ (ObjectExpression 40 76
                  [ (Property 41 53 false
                      (Identifier 41 47 "method")
                      (Literal 48 53 (JStr "GET") "'GET'"));
                    (Property 54 65 false
                      (Identifier 54 58 "path")
                      (Literal 59 65 (JStr "/foo") "'/foo'"));
                    (Property 66 75 false
                      (Identifier 66 73 "handler")
                      (Identifier 74 75 "h")) ]) ])) ]
        "const");
      (VariableDeclaration 78 97
        [ (VariableDeclarator 84 96
            (Identifier 84 89 "alias")
            (Identifier 90 96 "routes")) ]
        "const");
      (ReturnStatement 97 143
        (ArrayExpression 104 142
          [ (ObjectExpression 105 141
              [ (Property 106 118 false
                  (Identifier 106 112 "method")
                  (Literal 113 118 (JStr "GET") "'GET'"));
                (Property 119 130 false
                  (Identifier 119 123 "path")
                  (Literal 124 130 (JStr "/foo") "'/foo'"));
                (Property 131 140 false
                  (Identifier 131 138 "handler")
                  (Identifier 139 140 "h")) ]) ])) ].

(** An authentication with a mode and no strategy,
    from column 6 of [mode_only_config]:
<<
{mode:'try'}
>> *)
Definition mode_only_auth : value :=
  ObjectExpression 6 18
    [ (Property 7 17 false
        (Identifier 7 11 "mode")
        (Literal 12 17 (JStr "try") "'try'")) ].

(** The [config] with that authentication:
<<
{auth:{mode:'try'}}
>> *)
Definition mode_only_config : value :=
  ObjectExpression 0 19
    [(Property 1 18 false (Identifier 1 5 "auth") mode_only_auth)].

(** An authentication whose mode is a variable, with no strategy,
    from column 6 of [variable_mode_config]:
<<
{mode:m}
>> *)
Definition variable_mode_auth : value :=
  ObjectExpression 6 14
    [(Property 7 13 false (Identifier 7 11 "mode") (Identifier 12 13 "m"))].

(** The [config] with that authentication:
<<
{auth:{mode:m}}
>> *)
Definition variable_mode_config : value :=
  ObjectExpression 0 15
    [(Property 1 14 false (Identifier 1 5 "auth") variable_mode_auth)].

(** A route whose handler is a name:
<<
{method:'GET',path:'/foo',handler:h}
>> *)
Definition reference_route : value :=
  ObjectExpression 0 36
    [ (Property 1 13 false
        (Identifier 1 7 "method")
        (Literal 8 13 (JStr "GET") "'GET'"));
      (Property 14 25 false
        (Identifier 14 18 "path")
        (Literal 19 25 (JStr "/foo") "'/foo'"));
      (Property 26 35 false
        (Identifier 26 33 "handler")
        (Identifier 34 35 "h")) ].

(** A route without handler:
<<
{method:'GET',path:'/foo'}
>> *)
Definition no_handler_route : value :=
  ObjectExpression 0 26
    [ (Property 1 13 false
        (Identifier 1 7 "method")
        (Literal 8 13 (JStr "GET") "'GET'"));
      (Property 14 25 false
        (Identifier 14 18 "path")
        (Literal 19 25 (JStr "/foo") "'/foo'")) ].

(** A route without handler, in which the variable [handler] is the value
    of another property:
<<
{method:'GET',path:'/foo',foo:handler}
>> *)
Definition stray_handler_route : value :=
  ObjectExpression 0 38
    [ (Property 1 13 false
        (Identifier 1 7 "method")
        (Literal 8 13 (JStr "GET") "'GET'"));
      (Property 14 25 false
        (Identifier 14 18 "path")
        (Literal 19 25 (JStr "/foo") "'/foo'"));
      (Property 26 37 false
        (Identifier 26 29 "foo")
        (Identifier 30 37 "handler")) ].


(* ================================================================== *)
(** * The document

    The part of the program that turns the routes into the document:
    [getSlug], [getModuleName], the printing of a route in
    [generateOutput], and the choice of the files in [parseRoutes]. *)
(* ================================================================== *)

(** A string is a sequence of code units below 256, each an [ascii]. *)
Definition between (low high : nat) (c : ascii) : bool :=
  (low <=? nat_of_ascii c)%nat && (nat_of_ascii c <=? high)%nat.

(** [toLowerCase] on one code unit: the letters [A] to [Z], and the
    capital letters from 192 to 222 but the sign at 215, move by 32. *)
Definition lower_unit (c : ascii) : ascii :=
  if between 65 90 c
     || (between 192 222 c && negb (nat_of_ascii c =? 215)%nat)
  then ascii_of_nat (nat_of_ascii c + 32)
  else c.

Fixpoint toLowerCase (s : string) : string :=
  match s with
  | EmptyString => EmptyString
  | String c rest => String (lower_unit c) (toLowerCase rest)
  end.

(** The class [\s] below 256: tab to carriage return, the space and the
    no-break space. *)
Definition whitespace (c : ascii) : bool :=
  between 9 13 c || (nat_of_ascii c =? 32)%nat || (nat_of_ascii c =? 160)%nat.

(** The class [[a-z0-9_-]]. *)
Definition slug_unit (c : ascii) : bool :=
  between 97 122 c || between 48 57 c
  || (nat_of_ascii c =? 95)%nat || (nat_of_ascii c =? 45)%nat.

(** [s.replace(/class/g, replacement)] for a class of one code unit. *)
Fixpoint replace_each (class : ascii -> bool) (replacement s : string)
  : string :=
  match s with
  | EmptyString => EmptyString
  | String c rest =>
      if class c
      then (replacement ++ replace_each class replacement rest)%string
      else String c (replace_each class replacement rest)
  end.

Definition getSlug (s : string) : string :=
  replace_each (fun c => negb (slug_unit c)) EmptyString
    (replace_each whitespace "-" (toLowerCase s)).

(** [s.replace(/^[a-z]/, character => character.toUpperCase())]. *)
Definition capitalise (s : string) : string :=
  match s with
  | EmptyString => EmptyString
  | String c rest =>
      if between 97 122 c
      then String (ascii_of_nat (nat_of_ascii c - 32)) rest
      else s
  end.

(** [string.endsWith(searchString)]. *)
Definition endsWith (s searchString : string) : bool :=
  (String.length searchString <=? String.length s)%nat &&
  (substring (String.length s - String.length searchString)
             (String.length searchString) s =? searchString)%string.

Definition IGNORE : list string :=
  [ "defaults.js"; "idp.js"; "index.js"; "validators.js" ].

(** The first filter of [parseRoutes]:
    [fileName.endsWith('.js') && ! IGNORE.has(fileName)]. *)
Definition isRouteFileName (fileName : string) : bool :=
  endsWith fileName ".js" && negb (existsb (String.eqb fileName) IGNORE).

(** The document that [generateOutput] builds. *)
Record document := { contents : string; body : string }.

Definition append_contents (text : string) (doc : document) : document :=
  {| contents := (contents doc ++ text)%string; body := body doc |}.

Definition append_body (text : string) (doc : document) : document :=
  {| contents := contents doc; body := (body doc ++ text)%string |}.

Fixpoint fold_result {A B : Type} (f : B -> A -> result B) (l : list A)
         (init : B) : result B :=
  match l with
  | [] => Ok init
  | x :: rest => acc <- f init x ;; fold_result f rest acc
  end.

Section Output.

(** [path.basename(filePath, extension)] and
    [JSON.stringify(v, null, '  ')] printed in a template literal belong
    to the platform; the program is read for any two such functions. *)
Variable basename : string -> string -> string.
Variable stringify : value -> string.

Definition getModuleName (filePath : string) : string :=
  capitalise (basename filePath ".js").

(** The second half of the body of [routes.forEach]: the printing of what
    the first half extracted. *)
Definition renderRoute (route : descriptor) (doc : document) : document :=
  let title :=
    template [to_string (routeMethod route); " ";
              to_string (routePath route)] in
  let doc := append_body (template [newline; "## "; title; newline; newline])
                         doc in
  let doc :=
    if truthy (routeAuthentication route) then
      let optional := truthy (read (routeAuthentication route) "optional") in
      let emojis :=
        if optional then (":lock:" ++ ":question:")%string else ":lock:" in
      let prefix := if optional then " Optionally" else EmptyString in
      let type := to_string (read (routeAuthentication route) "type") in
      let doc :=
        append_body (template [emojis; prefix; " HAWK-authenticated with ";
                               type; "."; newline; newline]) doc in
      append_contents (template ["  * ["; title; " "; emojis; " "; type;
                                 "](#"; getSlug title; ")"; newline]) doc
    else
      append_contents (template ["  * ["; title; "](#"; getSlug title; ")";
                                 newline]) doc in
  let doc := append_body (template [stringify (routeValidation route);
                                    newline]) doc in
  let doc := append_body (template [stringify (routeResponse route);
                                    newline]) doc in
  append_body (template [stringify (routeHandler route); newline]) doc.

(** The callback of [files.reduce]: one file, a path and its tree. *)
Definition generateFile (doc : document) (file : string * value)
  : result document :=
  let filePath := fst file in
  let ast := snd file in
  let doc := append_contents (template [newline; "* ";
                                        getModuleName filePath; newline])
                             doc in
  exportedFunction <- findExportedFunction ast (JStr filePath) ;;
  routes <- findReturnedData exportedFunction (JStr filePath) ;;
  routes <- as_array routes ;;
  fold_result (fun doc route =>
                 described <- describeRoute (JStr filePath) route ;;
                 Ok (renderRoute described doc))
              routes doc.

Definition generateOutput (files : list (string * value)) : result document :=
  fold_result generateFile files
              {| contents := EmptyString; body := EmptyString |}.

End Output.

(** No number of the tree is [NaN]: the parser gives a position or the
    value of a numeric literal, which is never [NaN]. *)
Fixpoint nan_free (v : value) : bool :=
  match v with
  | JNum NaN => false
  | JArr elements => forallb nan_free elements
  | JObj fields => forallb (fun e => nan_free (snd e)) fields
  | _ => true
  end.

(** ** More parsed trees *)

(** A body whose return statement returns nothing,
    from column 25 of the file that exports the function:
<<
{return;}
>> *)
Definition bare_return_body : value :=
  BlockStatement 25 34 [ReturnStatement 26 33 JNull].

(** A body whose return statement is inside another statement,
    from column 25 of the file that exports the function:
<<
{if (x) {return routes;}}
>> *)
Definition nested_return_statement : value :=
  Node "IfStatement" 26 49
       [ ("test", Identifier 30 31 "x");
         ("consequent",
          BlockStatement 33 49
            [ReturnStatement 34 48 (Identifier 41 47 "routes")]);
         ("alternate", JNull) ].

Definition nested_return_body : value :=
  BlockStatement 25 50 [nested_return_statement].

(** A route without method:
<<
{path:'/foo'}
>> *)
Definition no_method_route : value :=
  ObjectExpression 0 13
    [ Property 1 12 false (Identifier 1 5 "path")
               (Literal 6 12 (JStr "/foo") "'/foo'") ].






(** One document after another. *)
Definition join_documents (first_part second_part : document) : document :=
  {| contents := (contents first_part ++ contents second_part)%string;
     body := (body first_part ++ body second_part)%string |}.

Definition empty_document : document :=
  {| contents := EmptyString; body := EmptyString |}.

(* ================================================================== *)
(** * Properties of the JavaScript primitives *)
(* ================================================================== *)

Lemma existsb_map_snd {A B : Type} (f : B -> bool) (l : list (A * B)) :
  existsb f (map snd l) = existsb (fun e => f (snd e)) l.
Proof.
  induction l as [|e l IH]; simpl; [reflexivity|]. now rewrite IH.
Qed.

Lemma existsb_reads {A B : Type} (f : B -> bool) (g : A -> B) (l : list A) :
  existsb f (map g l) = existsb (fun x => f (g x)) l.
Proof.
  induction l as [|x l IH]; simpl; [reflexivity|]. now rewrite IH.
Qed.

Lemma forallb_reads {A B : Type} (f : B -> bool) (g : A -> B) (l : list A) :
  forallb f (map g l) = forallb (fun x => f (g x)) l.
Proof.
  induction l as [|x l IH]; simpl; [reflexivity|]. now rewrite IH.
Qed.

Lemma forallb_pointwise {A : Type} (f g : A -> bool) (l : list A) :
  (forall x, f x = g x) -> forallb f l = forallb g l.
Proof.
  intros H. induction l as [|x l IH]; simpl; [reflexivity|].
  now rewrite H, IH.
Qed.

Lemma array_index_key (i : nat) : array_index (index_key i) = Some i.
Proof.
  unfold array_index, index_key.
  rewrite DecimalString.NilEmpty.usu, DecimalNat.Unsigned.of_to,
    String.eqb_refl. reflexivity.
Qed.

Lemma array_reads (elements : list value) :
  map (read (JArr elements)) (own_keys (JArr elements)) = elements.
Proof.
  simpl. rewrite map_map.
  apply nth_ext with (d := JUndefined) (d' := JUndefined).
  - now rewrite length_map, length_seq.
  - intros n Hn. rewrite length_map, length_seq in Hn.
    rewrite nth_indep with (d' := read (JArr elements) (index_key 0))
      by now rewrite length_map, length_seq.
    rewrite (map_nth (fun i => read (JArr elements) (index_key i))).
    rewrite seq_nth by assumption. simpl.
    now rewrite array_index_key.
Qed.

Lemma unique_not_in (k : string) (keys : list string) :
  existsb (String.eqb k) keys = false -> ~ In k keys.
Proof.
  intros H Hin.
  assert (existsb (String.eqb k) keys = true) as E.
  { apply existsb_exists. exists k. split; [assumption|].
    apply String.eqb_refl. }
  congruence.
Qed.

Lemma object_reads (fields : list (string * value)) :
  unique (map fst fields) = true ->
  map (read (JObj fields)) (own_keys (JObj fields)) = map snd fields.
Proof.
  simpl. induction fields as [|[k v] fields IH]; simpl; [reflexivity|].
  intros H. apply andb_true_iff in H as [Hk Hu].
  apply negb_true_iff, unique_not_in in Hk.
  rewrite String.eqb_refl. f_equal.
  rewrite <- (IH Hu). apply map_ext_in. intros k' Hin. simpl.
  destruct (String.eqb_spec k' k) as [->|_]; [contradiction|reflexivity].
Qed.

(** The reads of the keys of a structural value are its values. *)
Lemma reads_values (v : value) :
  distinct_keys v = true -> isObject v = true ->
  map (read v) (own_keys v) = values v.
Proof.
  destruct v; simpl; try discriminate; intros Hd _.
  - apply array_reads.
  - now apply object_reads.
Qed.

Lemma well_formed_distinct (v : value) :
  well_formed v = true -> distinct_keys v = true.
Proof.
  destruct v; simpl; try reflexivity.
  intros H. now apply andb_true_iff in H.
Qed.

Lemma well_formed_values (v child : value) :
  well_formed v = true -> In child (values v) -> well_formed child = true.
Proof.
  destruct v; simpl; try contradiction.
  - intros H Hin. now apply (proj1 (forallb_forall _ _) H).
  - intros H Hin. apply andb_true_iff in H as [_ H].
    apply in_map_iff in Hin as [e [<- Hin]].
    now apply (proj1 (forallb_forall _ _) H e).
Qed.

Lemma depth_values (v child : value) :
  In child (values v) -> depth child < depth v.
Proof.
  destruct v; simpl; try contradiction.
  - induction elements as [|e l IH]; simpl; [contradiction|].
    intros [->|Hin]; [lia|]. specialize (IH Hin). lia.
  - induction fields as [|e l IH]; simpl; [contradiction|].
    intros [<-|Hin]; [lia|]. specialize (IH Hin). lia.
Qed.

(** Induction on a value through its values. *)
Lemma value_induction (P : value -> Prop) :
  (forall v, (forall child, In child (values v) -> P child) -> P v) ->
  forall v, P v.
Proof.
  intros step v.
  assert (forall n v, depth v < n -> P v) as H.
  { induction n as [|n IH]; intros w Hw; [lia|].
    apply step. intros child Hin. apply IH.
    apply depth_values in Hin. lia. }
  apply (H (S (depth v))). lia.
Qed.

(** A read of a structural value is one of its values or a scalar. *)
Lemma read_structural (v : value) (k : string) :
  isObject (read v k) = true -> In (read v k) (values v).
Proof.
  destruct v as [| | | |s|elements|fields]; simpl; try discriminate.
  - destruct (array_index k) as [i|].
    + destruct (String.get i s); discriminate.
    + destruct (k =? "length")%string; discriminate.
  - destruct (array_index k) as [i|].
    + destruct (Nat.lt_ge_cases i (List.length elements)) as [Hi|Hi].
      * intros _. now apply nth_In.
      * rewrite nth_overflow by assumption. discriminate.
    + destruct (k =? "length")%string; discriminate.
  - induction fields as [|[k' v] fields IH]; simpl; [discriminate|].
    destruct (k =? k')%string; [now left|]. intros H. right. now apply IH.
Qed.

Lemma read_depth (v : value) (k : string) :
  isObject v = true -> depth (read v k) < depth v.
Proof.
  intros Hv. destruct (isObject (read v k)) eqn:E.
  - apply depth_values, read_structural, E.
  - destruct v; try discriminate; destruct (read _ k); try discriminate;
      simpl; lia.
Qed.

Lemma read_well_formed (v : value) (k : string) :
  well_formed v = true -> well_formed (read v k) = true.
Proof.
  intros Hv. destruct (isObject (read v k)) eqn:E.
  - apply (well_formed_values v); [assumption|]. apply read_structural, E.
  - destruct (read v k); try discriminate; reflexivity.
Qed.

Lemma get_structural (v : value) (k : string) :
  isObject v = true -> get v k = Ok (read v k).
Proof. destruct v; try discriminate; reflexivity. Qed.

Lemma Object_keys_structural (v : value) :
  isObject v = true -> Object_keys v = Ok (own_keys v).
Proof. destruct v; try discriminate; reflexivity. Qed.

Lemma structural_truthy (v : value) : isObject v = true -> truthy v = true.
Proof. destruct v; try discriminate; reflexivity. Qed.

(* ================================================================== *)
(** * Properties of the matcher *)
(* ================================================================== *)

(** The equation of the source: scalar nodes are compared, structural
    nodes need structural criteria, and then every value of the criteria
    is matched by some value of the node. *)
Lemma match_unfold (node criteria : value) :
  match_ node criteria =
  if negb (isObject node) then strict_equals node criteria
  else if negb (isObject criteria) then false
  else forallb (fun cv => existsb (fun nv => match_ nv cv) (values node))
               (values criteria).
Proof.
  destruct node as [| | | | |elements|fields]; try reflexivity; simpl.
  destruct (isObject criteria); simpl; [|reflexivity].
  apply forallb_pointwise. intros cv. symmetry.
  apply (existsb_map_snd (fun nv => match_ nv cv)).
Qed.

Lemma strict_equals_scalar (a b : value) :
  strict_equals a b = true -> isObject a = false /\ isObject b = false.
Proof.
  destruct a as [| | |[?|]| | |], b as [| | |[?|]| | |]; simpl;
    try discriminate; auto.
Qed.

Lemma match_structural (node criteria : value) :
  isObject criteria = true -> match_ node criteria = true ->
  isObject node = true.
Proof.
  intros Hc Hm. rewrite match_unfold in Hm.
  destruct (isObject node); [reflexivity|]. simpl in Hm.
  apply strict_equals_scalar in Hm. destruct Hm; congruence.
Qed.

(** [match], in terms of the values on the two sides. *)
Lemma match_values (node criteria : value) :
  match_ node criteria = true <->
  (isObject criteria = false /\ isObject node = false /\
   strict_equals node criteria = true) \/
  (isObject criteria = true /\ isObject node = true /\
   forall cv, In cv (values criteria) ->
              exists nv, In nv (values node) /\ match_ nv cv = true).
Proof.
  rewrite match_unfold.
  destruct (isObject node) eqn:En, (isObject criteria) eqn:Ec; simpl.
  - rewrite forallb_forall. split.
    + intros H. right. repeat split. intros cv Hcv.
      apply existsb_exists. now apply H.
    + intros [[? _]|[_ [_ H]]]; [discriminate|].
      intros cv Hcv. apply existsb_exists. now apply H.
  - split; [discriminate|]. intros [[_ [? _]]|[? _]]; discriminate.
  - split.
    + intros H. apply strict_equals_scalar in H. destruct H; congruence.
    + intros [[? _]|[_ [? _]]]; discriminate.
  - split.
    + intros H. left. now repeat split.
    + now intros [[_ [_ H]]|[? _]].
Qed.

Lemma fold_left_append {A : Type} (f : A -> list value) (l : list A)
      (init : list value) :
  fold_left (fun results x => results ++ f x) l init = init ++ flat_map f l.
Proof.
  revert init. induction l as [|x l IH]; intros init; simpl.
  - now rewrite app_nil_r.
  - now rewrite IH, app_assoc.
Qed.

(** [find], as the source reads: the node itself when it matches, else
    the search of its values when the option that applies is set. *)
Lemma find_unfold (node criteria : value) (opts : options) :
  find node criteria opts =
  if match_ node criteria then [node]
  else if isArray node && array opts
       then flat_map (fun child => find child criteria opts) (values node)
  else if isObject node && recursive opts
       then flat_map (fun child => find child criteria opts) (values node)
  else [].
Proof.
  destruct node as [| | | | |elements|fields];
    cbn [find isArray isObject values andb];
    (destruct (match_ _ criteria); [reflexivity|]); try reflexivity.
  - destruct (array opts), (recursive opts); try reflexivity;
      apply (fold_left_append (fun child => find child criteria opts)).
  - destruct (recursive opts); [|reflexivity].
    rewrite (fold_left_append (fun e => find (snd e) criteria opts)). simpl.
    now rewrite !flat_map_concat_map, map_map.
Qed.

(** Whatever [find] returns matches the criteria. *)
Lemma find_matches (criteria : value) (opts : options) :
  forall node found,
    In found (find node criteria opts) -> match_ found criteria = true.
Proof.
  induction node as [node IH] using value_induction. intros found.
  rewrite find_unfold. destruct (match_ node criteria) eqn:Em.
  - intros [<-|[]]. exact Em.
  - destruct (isArray node && array opts);
      [|destruct (isObject node && recursive opts)];
      try (intros Hin; apply in_flat_map in Hin as [child [Hc Hf]];
           now apply (IH child Hc)).
    contradiction.
Qed.

(* ------------------------------------------------------------------ *)
(** ** The matcher run operation by operation *)

Section EverySome.

Context {A : Type}.
Variable f : A -> run bool.

(** When the callback returns [g x] on every element, [every] and
    [some] are [forallb] and [existsb]. *)
Variable g : A -> bool.

Lemma every_total (l : list A) :
  (forall x, In x l -> f x = Some (Ok (g x))) ->
  every l f = Some (Ok (forallb g l)).
Proof.
  induction l as [|x l IH]; intros H; simpl; [reflexivity|].
  rewrite (H x) by now left. simpl.
  destruct (g x); simpl; [|reflexivity].
  apply IH. intros y Hy. apply H. now right.
Qed.

Lemma some_total (l : list A) :
  (forall x, In x l -> f x = Some (Ok (g x))) ->
  some l f = Some (Ok (existsb g l)).
Proof.
  induction l as [|x l IH]; intros H; simpl; [reflexivity|].
  rewrite (H x) by now left. simpl.
  destruct (g x); simpl; [reflexivity|].
  apply IH. intros y Hy. apply H. now right.
Qed.

(** When the callback returns on every element, so do [every] and
    [some]. *)
Lemma every_returns (l : list A) :
  (forall x, In x l -> exists b, f x = Some (Ok b)) ->
  exists b, every l f = Some (Ok b).
Proof.
  induction l as [|x l IH]; intros H; simpl; [now exists true|].
  destruct (H x) as [b Hb]; [now left|]. rewrite Hb. simpl.
  destruct b; [|now exists false].
  apply IH. intros y Hy. apply H. now right.
Qed.

Lemma some_returns (l : list A) :
  (forall x, In x l -> exists b, f x = Some (Ok b)) ->
  exists b, some l f = Some (Ok b).
Proof.
  induction l as [|x l IH]; intros H; simpl; [now exists false|].
  destruct (H x) as [b Hb]; [now left|]. rewrite Hb. simpl.
  destruct b; [now exists true|].
  apply IH. intros y Hy. apply H. now right.
Qed.

End EverySome.

Lemma reduce_total {A : Type} (f : list value -> A -> run (list value))
      (g : A -> list value) (l : list A) (init : list value) :
  (forall acc x, In x l -> f acc x = Some (Ok (acc ++ g x))) ->
  reduce l f init = Some (Ok (init ++ flat_map g l)).
Proof.
  revert init. induction l as [|x l IH]; intros init H; simpl.
  - now rewrite app_nil_r.
  - rewrite (H init x) by now left. simpl.
    rewrite IH by (intros acc y Hy; apply H; now right).
    now rewrite app_assoc.
Qed.

(** With fuel for every level of the node, [match] run operation by
    operation throws nothing and returns what [match_] computes. *)
Lemma match_run_total (fuel : nat) :
  forall node criteria,
    well_formed node = true -> well_formed criteria = true ->
    depth node < fuel ->
    match_run fuel node criteria = Some (Ok (match_ node criteria)).
Proof.
  induction fuel as [|fuel IH]; intros node criteria Hn Hc Hd; [lia|].
  simpl. rewrite match_unfold.
  destruct (isObject node) eqn:En; simpl.
  2: { now destruct (strict_equals node criteria). }
  destruct (isObject criteria) eqn:Ec; simpl; [|reflexivity].
  rewrite (Object_keys_structural criteria Ec). simpl.
  rewrite <- (reads_values criteria (well_formed_distinct _ Hc) Ec).
  rewrite forallb_reads.
  apply every_total. intros ck _.
  rewrite (Object_keys_structural node En). simpl.
  rewrite <- (reads_values node (well_formed_distinct _ Hn) En).
  rewrite existsb_reads.
  apply some_total. intros nk _.
  rewrite (get_structural node nk En), (get_structural criteria ck Ec). simpl.
  apply IH.
  - now apply read_well_formed.
  - now apply read_well_formed.
  - pose proof (read_depth node nk En). lia.
Qed.

Lemma find_run_total (fuel : nat) :
  forall node criteria opts,
    well_formed node = true -> well_formed criteria = true ->
    depth node + 1 < fuel ->
    find_run fuel node criteria opts = Some (Ok (find node criteria opts)).
Proof.
  induction fuel as [|fuel IH]; intros node criteria opts Hn Hc Hd; [lia|].
  simpl. rewrite match_run_total by (try assumption; lia). simpl.
  rewrite find_unfold. destruct (match_ node criteria); [reflexivity|].
  destruct (isArray node && array opts) eqn:Ea.
  - rewrite (reduce_total _ (fun child => find child criteria opts));
      [reflexivity|].
    intros acc child Hin. rewrite IH; [reflexivity| |assumption|].
    + now apply (well_formed_values node).
    + apply depth_values in Hin. lia.
  - destruct (isObject node) eqn:En; simpl; [|reflexivity].
    destruct (recursive opts); [|reflexivity].
    rewrite (Object_keys_structural node En). simpl.
    rewrite <- (reads_values node (well_formed_distinct _ Hn) En).
    rewrite flat_map_concat_map, map_map, <- flat_map_concat_map.
    rewrite (reduce_total _ (fun key => find (read node key) criteria opts));
      [reflexivity|].
    intros acc key _. rewrite (get_structural node key En). simpl.
    rewrite IH; [reflexivity| |assumption|].
    + now apply read_well_formed.
    + pose proof (read_depth node key En). lia.
Qed.

(** The same without any assumption on the keys: the run returns. *)
Lemma reduce_returns {A B : Type} (f : B -> A -> run B) (l : list A) :
  (forall acc x, In x l -> exists r, f acc x = Some (Ok r)) ->
  forall init, exists r, reduce l f init = Some (Ok r).
Proof.
  induction l as [|x l IH]; intros H init; simpl; [now exists init|].
  destruct (H init x) as [r Hr]; [now left|]. rewrite Hr. simpl.
  apply IH. intros acc y Hy. apply H. now right.
Qed.

Lemma match_run_returns (fuel : nat) :
  forall node criteria,
    depth node < fuel ->
    exists b, match_run fuel node criteria = Some (Ok b).
Proof.
  induction fuel as [|fuel IH]; intros node criteria Hd; [lia|].
  simpl. destruct (isObject node) eqn:En; simpl.
  2: { destruct (strict_equals node criteria); eexists; reflexivity. }
  destruct (isObject criteria) eqn:Ec; simpl; [|now exists false].
  rewrite (Object_keys_structural criteria Ec). simpl.
  apply every_returns. intros ck _.
  rewrite (Object_keys_structural node En). simpl.
  apply some_returns. intros nk _.
  rewrite (get_structural node nk En), (get_structural criteria ck Ec). simpl.
  apply IH. pose proof (read_depth node nk En). lia.
Qed.

Lemma find_run_returns (fuel : nat) :
  forall node criteria opts,
    depth node + 1 < fuel ->
    exists found, find_run fuel node criteria opts = Some (Ok found).
Proof.
  induction fuel as [|fuel IH]; intros node criteria opts Hd; [lia|].
  simpl. destruct (match_run_returns fuel node criteria) as [b Hb]; [lia|].
  rewrite Hb. simpl. destruct b; [now exists [node]|].
  destruct (isArray node && array opts) eqn:Ea.
  - apply reduce_returns. intros acc child Hin.
    destruct (IH child criteria opts) as [found Hf].
    { apply depth_values in Hin. lia. }
    rewrite Hf. simpl. eexists; reflexivity.
  - destruct (isObject node) eqn:En; simpl; [|now exists []].
    destruct (recursive opts); [|now exists []].
    rewrite (Object_keys_structural node En). simpl.
    apply reduce_returns. intros acc key _.
    rewrite (get_structural node key En). simpl.
    destruct (IH (read node key) criteria opts) as [found Hf].
    { pose proof (read_depth node key En). lia. }
    rewrite Hf. simpl. eexists; reflexivity.
Qed.

(* ================================================================== *)
(** * Properties of the assertions and of the property extractor *)
(* ================================================================== *)

Lemma get_truthy (v : value) (k : string) :
  truthy v = true -> get v k = Ok (read v k).
Proof. destruct v; try discriminate; reflexivity. Qed.

Lemma assertType_accepts (node : value) (types : list string) (filePath : value) :
  truthy node = true -> has types (read node "type") = true ->
  assertType node types filePath = Ok tt.
Proof.
  intros Ht Hh. unfold assertType. rewrite Ht, (get_truthy _ _ Ht). simpl.
  now rewrite Hh.
Qed.

Lemma assertType_rejects (node : value) (types : list string) (filePath : value) :
  has types (read node "type") = false ->
  exists e, assertType node types filePath = Throw e.
Proof.
  intros Hh. unfold assertType. destruct (truthy node) eqn:Ht; simpl.
  - rewrite (get_truthy _ _ Ht). simpl. rewrite Hh. simpl.
    repeat match goal with
           | |- context [bind ?m _] =>
               let r := fresh "r" in
               destruct m as [r|] eqn:?; simpl; [|eexists; reflexivity]
           end.
    unfold fail. eexists; reflexivity.
  - unfold fail. eexists; reflexivity.
Qed.

Lemma assertType_accepted (node : value) (types : list string) (filePath : value) :
  assertType node types filePath = Ok tt ->
  truthy node = true /\ has types (read node "type") = true.
Proof.
  intros H. destruct (truthy node) eqn:Ht.
  - split; [reflexivity|].
    destruct (has types (read node "type")) eqn:Hh; [reflexivity|].
    destruct (assertType_rejects node types filePath Hh) as [e He].
    congruence.
  - unfold assertType in H. rewrite Ht in H. discriminate.
Qed.

(** What the search of a property finds is a structural value. *)
Lemma found_property_structural (properties : value) (key : string)
      (found : value) :
  In found (find properties (propertyCriteria key) into_arrays) ->
  isObject found = true.
Proof.
  intros Hin. apply find_matches in Hin.
  now apply (match_structural found (propertyCriteria key)).
Qed.

(** [findProperty] through the list of the properties found. *)
Lemma findProperty_found (node properties : value) (key : string)
      (types : list string) (filePath : value) :
  get node "properties" = Ok properties ->
  findProperty node key types filePath =
  match find properties (propertyCriteria key) into_arrays with
  | [] => Ok JUndefined
  | found :: _ =>
      assertType (read found "value") types filePath ;;;
      Ok (read found "value")
  end.
Proof.
  intros Hp. unfold findProperty. rewrite Hp. simpl.
  destruct (find properties (propertyCriteria key) into_arrays)
    as [|found rest] eqn:Ef; simpl; [reflexivity|].
  assert (isObject found = true) as Ho.
  { apply (found_property_structural properties key). rewrite Ef. now left. }
  rewrite (structural_truthy _ Ho), (get_structural _ _ Ho). simpl.
  reflexivity.
Qed.

(** A property that is looked for and returned is truthy and has one of
    the types asked for. *)
Lemma findProperty_typed (node : value) (key : string) (types : list string)
      (filePath found : value) :
  findProperty node key types filePath = Ok found ->
  found = JUndefined \/
  (truthy found = true /\ has types (read found "type") = true).
Proof.
  unfold findProperty. destruct (get node "properties") as [properties|];
    simpl; [|discriminate].
  destruct (truthy (first _)); [|intros [= <-]; now left].
  destruct (get (first _) "value") as [v|] eqn:Ev; simpl; [|discriminate].
  destruct (assertType v types filePath) as [[]|] eqn:Ea; simpl;
    [|discriminate].
  intros [= <-]. right. now apply (assertType_accepted v types filePath).
Qed.

Lemma bind_returned {A B : Type} (m : result A) (k : A -> result B) (b : B) :
  bind m k = Ok b -> exists a, m = Ok a /\ k a = Ok b.
Proof.
  destruct m as [a|e]; simpl; [|discriminate]. intros H. now exists a.
Qed.

(* ================================================================== *)
(** * Properties of the handler extractor *)
(* ================================================================== *)

(** Without a property found for [handler], both branches of
    [findRouteHandler] read an attribute of [undefined]. *)
Lemma findRouteHandler_nothing_found (route properties filePath : value) :
  get route "properties" = Ok properties ->
  find properties (propertyCriteria "handler") into_arrays = [] ->
  findRouteHandler route filePath = Throw EngineError.
Proof.
  intros Hp Hf. unfold findRouteHandler.
  rewrite !(findProperty_found route properties) by assumption.
  rewrite Hf. reflexivity.
Qed.

(** A handler that is a name: the first branch fails on the type, the
    second reads the name and returns nothing. *)
Lemma findRouteHandler_reference (route properties filePath : value)
      (found : value) (rest : list value) :
  get route "properties" = Ok properties ->
  find properties (propertyCriteria "handler") into_arrays = found :: rest ->
  read (read found "value") "type" = JStr "Identifier" ->
  findRouteHandler route filePath = Ok JUndefined.
Proof.
  intros Hp Hf Ht. unfold findRouteHandler.
  rewrite !(findProperty_found route properties) by assumption.
  rewrite Hf.
  assert (truthy (read found "value") = true) as Hv
    by (destruct (read found "value") as [| | |[?|]|[|? ?]| |];
        try discriminate; reflexivity).
  destruct (assertType_rejects (read found "value") FUNCTION_EXPRESSION_TYPES
              filePath) as [e He]; [now rewrite Ht|].
  rewrite He. simpl.
  rewrite (assertType_accepts _ IDENTIFIER_TYPES) by (try assumption; now rewrite Ht).
  simpl. now rewrite (get_truthy _ _ Hv).
Qed.

(** A handler that is a function: [findRouteHandler] returns the [value]
    attribute of the function node. *)
Lemma findRouteHandler_function (route properties filePath : value)
      (found : value) (rest : list value) :
  get route "properties" = Ok properties ->
  find properties (propertyCriteria "handler") into_arrays = found :: rest ->
  has FUNCTION_EXPRESSION_TYPES (read (read found "value") "type") = true ->
  findRouteHandler route filePath = Ok (read (read found "value") "value").
Proof.
  intros Hp Hf Ht. unfold findRouteHandler.
  rewrite !(findProperty_found route properties) by assumption.
  rewrite Hf.
  assert (truthy (read found "value") = true) as Hv
    by (destruct (read found "value") as [| | |[?|]|[|? ?]| |];
        try discriminate; reflexivity).
  rewrite (assertType_accepts _ FUNCTION_EXPRESSION_TYPES) by assumption.
  simpl. now rewrite (get_truthy _ _ Hv).
Qed.

(** The second branch of [findRouteHandler] returns nothing. *)
Lemma handler_name_discarded (route filePath handler : value) :
  (found <- findProperty route "handler" IDENTIFIER_TYPES filePath ;;
   handlerName <- get found "name" ;;
   Ok JUndefined) = Ok handler ->
  handler = JUndefined.
Proof.
  intros H. do 2 (apply bind_returned in H as [? [_ H]]). congruence.
Qed.

(** A handler that is there comes from the first branch: it is the
    [value] attribute of a node of a function type. *)
Lemma findRouteHandler_present (route filePath handler : value) :
  findRouteHandler route filePath = Ok handler -> handler <> JUndefined ->
  exists found,
    findProperty route "handler" FUNCTION_EXPRESSION_TYPES filePath = Ok found
    /\ has FUNCTION_EXPRESSION_TYPES (read found "type") = true
    /\ handler = read found "value".
Proof.
  unfold findRouteHandler, try_catch.
  destruct (findProperty route "handler" FUNCTION_EXPRESSION_TYPES filePath)
    as [found|e] eqn:E; cbn [bind].
  - destruct (findProperty_typed _ _ _ _ _ E) as [->|[Ht Hh]].
    + cbn [get]. intros H Hne. apply handler_name_discarded in H.
      contradiction.
    + rewrite (get_truthy _ _ Ht). intros [= <-] _. now exists found.
  - intros H Hne. apply handler_name_discarded in H. contradiction.
Qed.

(** A route is not described when its handler cannot be extracted. *)
Lemma describeRoute_needs_handler (filePath route : value) (e : thrown) :
  findRouteHandler route filePath = Throw e ->
  forall d, describeRoute filePath route <> Ok d.
Proof.
  intros Hh d Hd. unfold describeRoute in Hd.
  do 5 (apply bind_returned in Hd as [? [_ Hd]]).
  rewrite Hh in Hd. discriminate.
Qed.

(* ================================================================== *)
(** * Properties of the strategy normalizer *)
(* ================================================================== *)

Lemma marshallStrategy_name (name : string) :
  marshallStrategy (JStr name) = JStr (canonical name).
Proof.
  unfold marshallStrategy, canonical. simpl.
  destruct (prefix "sessionToken" name); [reflexivity|].
  destruct (prefix "keyFetchToken" name); reflexivity.
Qed.

Lemma indexOf_lower (l : list value) (v : value) : (-1 <= indexOf l v)%Z.
Proof.
  induction l as [|x l IH]; simpl; [lia|].
  destruct (strict_equals x v); [lia|].
  destruct (indexOf l v =? -1)%Z; lia.
Qed.

Lemma indexOf_absent (l : list value) (v : value) :
  (indexOf l v =? -1)%Z = negb (existsb (fun x => strict_equals x v) l).
Proof.
  induction l as [|x l IH]; simpl; [reflexivity|].
  destruct (strict_equals x v); simpl; [reflexivity|].
  pose proof (indexOf_lower l v).
  destruct (indexOf l v =? -1)%Z eqn:E; rewrite <- IH; [reflexivity|].
  apply Z.eqb_neq in E. apply Z.eqb_neq. lia.
Qed.

Lemma indexOf_names (seen : list string) (name : string) :
  (indexOf (map JStr seen) (JStr name) =? -1)%Z =
  negb (existsb (fun other => (name =? other)%string) seen).
Proof.
  rewrite indexOf_absent, existsb_reads. f_equal.
  induction seen as [|x seen IH]; [reflexivity|].
  cbn [existsb strict_equals]. rewrite String.eqb_sym. f_equal. exact IH.
Qed.

Lemma filter_filter {A : Type} (f g : A -> bool) (l : list A) :
  filter f (filter g l) = filter (fun x => g x && f x) l.
Proof.
  induction l as [|x l IH]; simpl; [reflexivity|].
  destruct (g x); simpl; [destruct (f x)|]; now rewrite IH.
Qed.

Lemma filter_pointwise {A : Type} (f g : A -> bool) (l : list A) :
  (forall x, f x = g x) -> filter f l = filter g l.
Proof.
  intros H. induction l as [|x l IH]; simpl; [reflexivity|].
  now rewrite H, IH.
Qed.

Lemma unseen_snoc (seen : list string) (name other : string) :
  unseen (seen ++ [name]) other = negb (other =? name)%string && unseen seen other.
Proof.
  unfold unseen. rewrite existsb_app. simpl. rewrite orb_false_r.
  destruct (existsb _ seen), (other =? name)%string; reflexivity.
Qed.

(** The [reduce] of the source from any list already collected. *)
Lemma dedupe_from (names seen : list string) :
  fold_left (fun deduped strategy =>
               if (indexOf deduped strategy =? -1)%Z
               then deduped ++ [strategy] else deduped)
            (map JStr names) (map JStr seen) =
  map JStr (seen ++ filter (unseen seen) (first_occurrences names)).
Proof.
  revert seen. induction names as [|name names IH]; intros seen;
    cbn [map fold_left first_occurrences filter].
  - now rewrite app_nil_r.
  - rewrite indexOf_names. fold (unseen seen name).
    destruct (unseen seen name) eqn:E.
    + change [JStr name] with (map JStr [name]). rewrite <- map_app, IH.
      rewrite <- app_assoc. simpl. do 3 f_equal.
      rewrite filter_filter. apply filter_pointwise. intros other.
      now rewrite unseen_snoc.
    + rewrite IH. do 2 f_equal. rewrite filter_filter.
      apply filter_pointwise. intros other.
      destruct (String.eqb_spec other name) as [->|_]; simpl.
      * now rewrite E.
      * reflexivity.
Qed.

Lemma filter_unseen_nil (names : list string) :
  filter (unseen []) names = names.
Proof.
  induction names as [|x l IH]; [reflexivity|]. cbn. now rewrite IH.
Qed.

(** The code keeps the names of the specification, in its order. *)
Lemma dedupe_first_occurrences (names : list string) :
  dedupe (map JStr names) = map JStr (first_occurrences names).
Proof.
  unfold dedupe. pose proof (dedupe_from names []) as H.
  cbn [map] in H. rewrite H. clear H. f_equal.
  rewrite filter_unseen_nil. reflexivity.
Qed.

Lemma first_occurrences_In (names : list string) (name : string) :
  In name (first_occurrences names) <-> In name names.
Proof.
  induction names as [|x names IH]; simpl; [reflexivity|].
  rewrite filter_In, IH. split.
  - intros [->|[H _]]; auto.
  - intros [->|H]; [now left|].
    destruct (String.eqb_spec name x) as [->|Hne]; [now left|].
    right. split; [assumption|reflexivity].
Qed.

Lemma first_occurrences_NoDup (names : list string) :
  NoDup (first_occurrences names).
Proof.
  induction names as [|x names IH]; simpl; constructor.
  - rewrite filter_In. intros [_ H]. now rewrite String.eqb_refl in H.
  - now apply NoDup_filter.
Qed.

Lemma join_names (separator : string) (names : list string) :
  join separator (map JStr names) = String.concat separator names.
Proof.
  unfold join. rewrite map_map. simpl. now rewrite map_id.
Qed.

Lemma marshalled_names (filePath : value) (elements : list value)
      (names : list string) :
  Forall2 names_strategy elements names ->
  map_result (fun strategy =>
                assertType strategy LITERAL_TYPES filePath ;;;
                strategyValue <- get strategy "value" ;;
                Ok (marshallStrategy strategyValue)) elements =
  Ok (map JStr (map canonical names)).
Proof.
  induction 1 as [|element name elements names [Ht [Hty Hv]] _ IH]; simpl;
    [reflexivity|].
  rewrite (assertType_accepts element LITERAL_TYPES) by (try assumption; now rewrite Hty).
  simpl. rewrite (get_truthy _ _ Ht), Hv. simpl.
  rewrite IH. simpl. now rewrite marshallStrategy_name.
Qed.

Lemma optional_mode_read (mode : value) :
  (if truthy mode then
     modeValue <- get mode "value" ;;
     if strict_equals modeValue (JStr "try") then Ok true
     else
       modeValue' <- get mode "value" ;;
       Ok (strict_equals modeValue' (JStr "optional"))
   else Ok false) = Ok (optional_mode mode).
Proof.
  unfold optional_mode. destruct (truthy mode) eqn:Ht; [|reflexivity].
  rewrite (get_truthy _ _ Ht). simpl.
  now destruct (strict_equals (read mode "value") (JStr "try")).
Qed.

Lemma nonempty_truthy (s : string) : s <> EmptyString -> truthy (JStr s) = true.
Proof.
  intros H. simpl. apply negb_true_iff. now apply String.eqb_neq.
Qed.

(* ================================================================== *)
(** * Properties of the returned data *)
(* ================================================================== *)

Lemma read_typed (v : value) (type : string) :
  read v "type" = JStr type -> exists fields, v = JObj fields.
Proof.
  destruct v as [| | | |s|elements|fields]; try discriminate.
  intros _. now exists fields.
Qed.

Lemma lookup_replace_same (k : string) (v : value)
      (fields : list (string * value)) :
  lookup k fields <> JUndefined -> lookup k (replace k v fields) = v.
Proof.
  induction fields as [|[k' v'] fields IH]; simpl; [congruence|].
  destruct (k =? k')%string eqn:E; simpl.
  - now rewrite String.eqb_refl.
  - rewrite E. exact IH.
Qed.

Lemma lookup_replace_other (k k' : string) (v : value)
      (fields : list (string * value)) :
  k' <> k -> lookup k' (replace k v fields) = lookup k' fields.
Proof.
  intros Hne. induction fields as [|[k0 v0] fields IH]; simpl; [reflexivity|].
  destruct (String.eqb_spec k k0) as [->|Hk]; simpl.
  - apply String.eqb_neq in Hne. now rewrite Hne.
  - now rewrite IH.
Qed.

(** Replacing an attribute that a test rejects by a value that it rejects
    leaves the test of the attributes as it was. *)
Lemma existsb_replace (test : value -> bool) (k : string) (v : value)
      (fields : list (string * value)) :
  test (lookup k fields) = false -> test v = false ->
  existsb test (map snd (replace k v fields)) = existsb test (map snd fields).
Proof.
  intros Hold Hnew.
  induction fields as [|[k' v'] fields IH]; simpl in *; [reflexivity|].
  destruct (k =? k')%string; simpl.
  - now rewrite Hold, Hnew.
  - now rewrite IH.
Qed.

Lemma match_scalar_criteria (node criteria : value) :
  isObject node = true -> isObject criteria = false ->
  match_ node criteria = false.
Proof.
  intros Hn Hc. rewrite match_unfold, Hn, Hc. reflexivity.
Qed.

(** The search of the return statements among statements. *)
Lemma find_returns_unfold (statements : list value) :
  find (JArr statements) returnCriteria into_arrays =
  if existsb (fun nv => match_ nv (JStr "ReturnStatement")) statements
  then [JArr statements]
  else flat_map (fun s => find s returnCriteria into_arrays) statements.
Proof.
  rewrite find_unfold, match_unfold. simpl. rewrite andb_true_r.
  reflexivity.
Qed.

Lemma match_return_replace (fields : list (string * value)) (v : value) :
  isObject (lookup "argument" fields) = true -> isObject v = true ->
  match_ (JObj (replace "argument" v fields)) returnCriteria =
  match_ (JObj fields) returnCriteria.
Proof.
  intros Hold Hnew. rewrite !match_unfold. simpl. rewrite !andb_true_r.
  apply existsb_replace; now apply match_scalar_criteria.
Qed.

Lemma app_singleton {A : Type} (l1 l2 : list A) (x : A) :
  l1 ++ x :: l2 = [x] -> l1 = [] /\ l2 = [].
Proof.
  destruct l1 as [|y l1]; simpl.
  - intros [= ->]. now split.
  - intros [= -> H]. now destruct l1.
Qed.

Lemma resolve_array (functionNode arrayLiteral filePath : value) :
  read arrayLiteral "type" = JStr "ArrayExpression" ->
  resolveReturnedData functionNode arrayLiteral filePath =
  Ok (read arrayLiteral "elements").
Proof.
  intros Ht. destruct (read_typed _ _ Ht) as [fields ->].
  unfold resolveReturnedData. cbn [get bind]. rewrite Ht.
  cbn [strict_equals String.eqb Ascii.eqb Bool.eqb bind].
  rewrite (assertType_accepts (JObj fields) ARRAY_TYPES);
    [reflexivity|reflexivity|now rewrite Ht].
Qed.

Lemma resolve_identifier (functionNode identifier filePath : value)
      (declarator arrayLiteral : value) :
  read identifier "type" = JStr "Identifier" ->
  find functionNode (declaratorCriteria (read identifier "name")) recursively
  = [declarator] ->
  read declarator "init" = arrayLiteral ->
  read arrayLiteral "type" = JStr "ArrayExpression" ->
  resolveReturnedData functionNode identifier filePath =
  Ok (read arrayLiteral "elements").
Proof.
  intros Hi Hf Hd Ha.
  destruct (read_typed _ _ Hi) as [ifields ->].
  destruct (read_typed _ _ Ha) as [afields Ea].
  assert (isObject declarator = true) as Ho.
  { apply (match_structural declarator
             (declaratorCriteria (read (JObj ifields) "name"))); [reflexivity|].
    apply (find_matches _ recursively functionNode). rewrite Hf. now left. }
  unfold resolveReturnedData. cbn [get bind]. rewrite Hi.
  cbn [strict_equals String.eqb Ascii.eqb Bool.eqb bind]. rewrite Hf.
  cbn [List.length Nat.eqb negb bind first hd].
  rewrite (get_structural _ _ Ho), Hd. cbn [bind].
  rewrite (assertType_accepts arrayLiteral ARRAY_TYPES);
    [|now rewrite Ea|now rewrite Ha].
  cbn [bind]. rewrite Ea. reflexivity.
Qed.

(** A body that is not a block is refused before it is looked at. *)
Lemma findReturnedData_not_block (functionNode filePath : value) :
  truthy functionNode = true ->
  strict_equals (read functionNode "type") (JStr "BlockStatement") = false ->
  findReturnedData functionNode filePath =
  fail "Expected type [ReturnStatement], found nothing" filePath JUndefined.
Proof.
  intros Ht Hb. unfold findReturnedData. rewrite (get_truthy _ _ Ht).
  cbn [bind]. rewrite Hb. reflexivity.
Qed.

(* ================================================================== *)
(** * The matcher: what the specification states *)
(* ================================================================== *)

(** C1.  Criteria that are a scalar are matched by exactly the scalar
    nodes that are [===] to them.  Criteria that are structural are
    matched by exactly the structural nodes in which, for every key of the
    criteria, some key of the node (of whatever name) holds a value that
    matches the value of that criteria key.  The keys are those of
    [Object.keys] and the values are read with [node[nodeKey]] and
    [criteria[criteriaKey]]; an object has each of its keys once. *)
Theorem match_characterisation (n c : value) :
  distinct_keys n = true -> distinct_keys c = true ->
  (isObject c = false ->
   (match_ n c = true <-> isObject n = false /\ strict_equals n c = true))
  /\
  (isObject c = true ->
   (match_ n c = true <->
    isObject n = true /\
    forall criteriaKey, In criteriaKey (own_keys c) ->
      exists nodeKey, In nodeKey (own_keys n) /\
                      match_ (read n nodeKey) (read c criteriaKey) = true)).
Proof.
  intros Hn Hc. split; intros Ec; rewrite match_values.
  - split.
    + intros [[_ H]|[H _]]; [exact H|congruence].
    + intros H. left. now split.
  - split.
    + intros [[H _]|[_ [En H]]]; [congruence|]. split; [exact En|].
      intros ck Hck.
      destruct (H (read c ck)) as [nv [Hnv Hm]].
      { rewrite <- (reads_values c Hc Ec). now apply in_map. }
      rewrite <- (reads_values n Hn En) in Hnv.
      apply in_map_iff in Hnv as [nk [<- Hnk]]. now exists nk.
    + intros [En H]. right. repeat split; try assumption.
      intros cv Hcv. rewrite <- (reads_values c Hc Ec) in Hcv.
      apply in_map_iff in Hcv as [ck [<- Hck]].
      destruct (H ck Hck) as [nk [Hnk Hm]].
      exists (read n nk). split; [|exact Hm].
      rewrite <- (reads_values n Hn En). now apply in_map.
Qed.

(** The criteria of a property named [handler] and the property
    [foo:handler], whose key is another name. *)
Lemma match_characterisation_witness :
  match_ (Property 26 37 false (Identifier 26 29 "foo")
                   (Identifier 30 37 "handler"))
         (propertyCriteria "handler") = true.
Proof.
  refine (proj2 (proj2 (match_characterisation
                          (Property 26 37 false (Identifier 26 29 "foo")
                                    (Identifier 30 37 "handler"))
                          (propertyCriteria "handler")
                          eq_refl eq_refl) eq_refl) _).
  split; [reflexivity|].
  intros criteriaKey [<-|[<-|[<-|[]]]].
  - exists "type". split; [cbn; tauto|reflexivity].
  - exists "kind". split; [cbn; tauto|reflexivity].
  - exists "value". split; [cbn; tauto|reflexivity].
Defined.

(** C7.  Without the [recursive] and the [array] option, [find] returns
    the node alone when it matches and nothing when it does not. *)
Theorem find_without_options (n c : value) :
  find n c no_options = if match_ n c then [n] else [].
Proof.
  rewrite find_unfold. destruct (match_ n c); [reflexivity|].
  simpl. now rewrite !andb_false_r.
Qed.

(** C9.  [find] and [match] throw nothing and return.  Run operation by
    operation, with fuel for the levels of the node, [match] returns a
    boolean and [find] a list, for every node, every criteria and every
    combination of the two options: a failed match is [false] and a search
    without result the empty list.  On trees whose objects have each key
    once, what they return is what the recursive definitions [match_] and
    [find] compute. *)
Theorem find_match_never_throw (fuel : nat) (node criteria : value)
        (opts : options) :
  depth node + 1 < fuel ->
  (exists matched, match_run fuel node criteria = Some (Ok matched)) /\
  (exists found, find_run fuel node criteria opts = Some (Ok found)) /\
  (well_formed node = true -> well_formed criteria = true ->
   match_run fuel node criteria = Some (Ok (match_ node criteria)) /\
   find_run fuel node criteria opts = Some (Ok (find node criteria opts))).
Proof.
  intros Hd. split; [|split].
  - apply match_run_returns. lia.
  - now apply find_run_returns.
  - intros Hn Hc. split.
    + apply match_run_total; try assumption. lia.
    + now apply find_run_total.
Qed.

Lemma find_match_never_throw_witness :
  match_run 24 inline_file exportCriteria
  = Some (Ok (match_ inline_file exportCriteria)) /\
  find_run 24 inline_file exportCriteria recursively
  = Some (Ok (find inline_file exportCriteria recursively)).
Proof.
  apply (find_match_never_throw 24 inline_file exportCriteria recursively).
  - apply Nat.ltb_lt. reflexivity.
  - reflexivity.
  - reflexivity.
Defined.

(* ================================================================== *)
(** * The property extractor: what the specification states *)
(* ================================================================== *)

(** C4, as the specification states it, fails: the object [{a:1,a:2}]
    has two properties named [a] and [findProperty] raises no error; it
    returns the value of the first. *)
Lemma duplicate_property_returned :
  List.length (properties_named "a" duplicate_object) = 2%nat /\
  List.length (find (read duplicate_object "properties")
                    (propertyCriteria "a") into_arrays) = 2%nat /\
  findProperty duplicate_object "a" LITERAL_TYPES routes_js
  = Ok (Literal 3 4 (num 1) "1") /\
  forall e, findProperty duplicate_object "a" LITERAL_TYPES routes_js
            <> Throw e.
Proof.
  repeat split; try reflexivity. intros e. discriminate.
Qed.

(** C4, amended.  [findProperty] looks at the first property that the
    search finds, in the order of the property list, whatever the number
    of the properties found: it asserts the type of the value of that
    property and returns that value.  When the search finds nothing it
    returns [undefined] and raises no error. *)
Theorem findProperty_first_found (node properties : value) (key : string)
        (types : list string) (filePath : value) :
  get node "properties" = Ok properties ->
  (find properties (propertyCriteria key) into_arrays = [] ->
   findProperty node key types filePath = Ok JUndefined) /\
  (forall found rest,
     find properties (propertyCriteria key) into_arrays = found :: rest ->
     findProperty node key types filePath =
     (assertType (read found "value") types filePath ;;;
      Ok (read found "value"))).
Proof.
  intros Hp. rewrite (findProperty_found node properties) by assumption.
  split.
  - now intros ->.
  - now intros found rest ->.
Qed.

Lemma findProperty_first_found_witness :
  findProperty duplicate_object "b" LITERAL_TYPES routes_js = Ok JUndefined /\
  findProperty duplicate_object "a" LITERAL_TYPES routes_js
  = (assertType (Literal 3 4 (num 1) "1") LITERAL_TYPES routes_js ;;;
     Ok (Literal 3 4 (num 1) "1")).
Proof.
  split.
  - apply (proj1 (findProperty_first_found duplicate_object
                    (read duplicate_object "properties") "b" LITERAL_TYPES
                    routes_js eq_refl)).
    reflexivity.
  - apply (proj2 (findProperty_first_found duplicate_object
                    (read duplicate_object "properties") "a" LITERAL_TYPES
                    routes_js eq_refl)
                 (Property 1 4 false (Identifier 1 2 "a")
                           (Literal 3 4 (num 1) "1"))
                 [Property 5 8 false (Identifier 5 6 "a")
                           (Literal 7 8 (num 2) "2")]).
    reflexivity.
Defined.

(* ================================================================== *)
(** * The returned data: what the specification states *)
(* ================================================================== *)

(** C3.  The file [module.exports=()=>[...]] exports an arrow function
    whose body is the array of routes.  [findExportedFunction] returns that
    body, and the extraction then stops with the error of [assertType] on
    nothing, where the same array returned from a block is extracted. *)
Theorem arrow_body_rejected :
  findExportedFunction arrow_file routes_js = Ok arrow_body /\
  read arrow_body "type" = JStr "ArrayExpression" /\
  describeFile arrow_file routes_js
  = fail "Expected type [ReturnStatement], found nothing" routes_js
         JUndefined /\
  describeFile block_file routes_js
  = Ok [ {| routeMethod := JStr "GET";
            routePath := JStr "/foo";
            routeAuthentication := JUndefined;
            routeValidation := JUndefined;
            routeResponse := JUndefined;
            routeHandler := JUndefined |} ].
Proof.
  assert (findExportedFunction arrow_file routes_js = Ok arrow_body) as He
    by reflexivity.
  split; [exact He|]. split; [reflexivity|]. split.
  - unfold describeFile, describeRoutes. rewrite He. cbn [bind].
    now rewrite findReturnedData_not_block.
  - vm_compute. reflexivity.
Qed.

(** C5, as the specification states it, fails.  The body
    [{const routes=[...];const alias=routes;return routes;}] declares one
    variable named [routes] and has one return statement, which returns
    that name; the search of the declaration also finds the declarator of
    [alias], whose initialiser is the identifier [routes], and the
    extraction stops, where the body with the array in the return
    statement is extracted. *)
Lemma alias_refused :
  List.length (bindings "routes" alias_body) = 1%nat /\
  List.length (find (read alias_body "body") returnCriteria into_arrays)
  = 1%nat /\
  findReturnedData alias_body routes_js
  = fail "Expected 1 set of route definitions, found 2" routes_js JUndefined /\
  findReturnedData alias_inline_body routes_js
  = Ok (JArr [ ObjectExpression 105 141
                 [ Property 106 118 false (Identifier 106 112 "method")
                            (Literal 113 118 (JStr "GET") "'GET'");
                   Property 119 130 false (Identifier 119 123 "path")
                            (Literal 124 130 (JStr "/foo") "'/foo'");
                   Property 131 140 false (Identifier 131 138 "handler")
                            (Identifier 139 140 "h") ] ]) /\
  (forall e, describeRoutes alias_inline_body routes_js <> Throw e) /\
  (forall d, describeRoutes alias_body routes_js <> Ok d).
Proof.
  repeat split; try reflexivity; intros x; discriminate.
Qed.

(** C5, amended.  Take a block whose search for return statements finds
    one statement, which returns an identifier, and in which the search
    for the declarator of that name finds one node (by the rule of the
    matcher the search finds a declarator when the name is its [id] and
    also when the name is its initialiser), whose initialiser is an array
    literal.  Then the resolution yields the elements of that array, as it
    does for the same block with the array written in the return
    statement, and the routes described are the same. *)
Theorem named_routes_as_inline (functionNode filePath : value)
        (before after : list value) (ret declarator : value) :
  read functionNode "type" = JStr "BlockStatement" ->
  read functionNode "body" = JArr (before ++ ret :: after) ->
  find (JArr (before ++ ret :: after)) returnCriteria into_arrays = [ret] ->
  read (read ret "argument") "type" = JStr "Identifier" ->
  find functionNode
       (declaratorCriteria (read (read ret "argument") "name")) recursively
  = [declarator] ->
  read (read declarator "init") "type" = JStr "ArrayExpression" ->
  let arrayLiteral := read declarator "init" in
  let written := inlined functionNode before ret after arrayLiteral in
  findReturnedData functionNode filePath = Ok (read arrayLiteral "elements") /\
  findReturnedData written filePath = Ok (read arrayLiteral "elements") /\
  describeRoutes functionNode filePath = describeRoutes written filePath.
Proof.
  intros Ht Hb Hr Hi Hf Hd arrayLiteral written.
  destruct (read_typed _ _ Ht) as [ffields ->].
  assert (match_ ret returnCriteria = true) as Hm
    by (apply (find_matches _ into_arrays (JArr (before ++ ret :: after)));
        rewrite Hr; now left).
  assert (isObject ret = true) as Ho
    by now apply (match_structural ret returnCriteria).
  destruct (read_typed _ _ Hi) as [ifields Ei].
  destruct (read_typed _ _ Hd) as [afields Ea].
  destruct ret as [| | | | |relements|rfields]; try discriminate.
  assert (findReturnedData (JObj ffields) filePath
          = Ok (read arrayLiteral "elements")) as Hnamed.
  { unfold findReturnedData. cbn [get bind]. rewrite Ht.
    cbn [strict_equals String.eqb Ascii.eqb Bool.eqb bind]. rewrite Hb, Hr.
    cbn [List.length Nat.eqb negb bind first hd get].
    now apply (resolve_identifier _ _ _ declarator arrayLiteral). }
  assert (findReturnedData written filePath
          = Ok (read arrayLiteral "elements")) as Hwritten.
  { rewrite find_returns_unfold in Hr.
    destruct (existsb _ (before ++ JObj rfields :: after)) eqn:Ex;
      [discriminate|].
    rewrite existsb_app in Ex. apply orb_false_iff in Ex as [Exb Exa].
    simpl in Exa.
    rewrite flat_map_app in Hr. cbn [flat_map] in Hr.
    rewrite (find_unfold (JObj rfields)), Hm in Hr. cbn [app] in Hr.
    apply app_singleton in Hr as [Hfb Hfa].
    assert (match_ (with_attribute "argument" arrayLiteral (JObj rfields))
                   returnCriteria = true) as Hm'.
    { cbn [with_attribute]. rewrite match_return_replace; [exact Hm| |].
      - simpl in Ei. now rewrite Ei.
      - unfold arrayLiteral. now rewrite Ea. }
    cbn [with_attribute] in Hm'.
    unfold written, inlined, findReturnedData. cbn [with_attribute].
    cbn [get bind read].
    rewrite lookup_replace_other by discriminate.
    simpl in Ht. rewrite Ht.
    cbn [strict_equals String.eqb Ascii.eqb Bool.eqb bind].
    rewrite lookup_replace_same by (simpl in Hb; rewrite Hb; discriminate).
    rewrite find_returns_unfold, existsb_app. cbn [existsb].
    change (match_ (JObj (replace "argument" arrayLiteral rfields))
                   (JStr "ReturnStatement")) with false.
    rewrite Exb, Exa. cbn [orb].
    rewrite flat_map_app. cbn [flat_map].
    rewrite Hfb, Hfa, app_nil_r. cbn [app].
    rewrite (find_unfold (JObj (replace "argument" arrayLiteral rfields))).
    rewrite Hm'.
    cbn [List.length Nat.eqb negb bind first hd get read].
    rewrite lookup_replace_same by (simpl in Ei; rewrite Ei; discriminate).
    now apply resolve_array. }
  split; [exact Hnamed|]. split; [exact Hwritten|].
  unfold describeRoutes. now rewrite Hnamed, Hwritten.
Qed.

Lemma named_routes_as_inline_witness :
  findReturnedData named_body routes_js = Ok (read named_routes "elements") /\
  findReturnedData
    (inlined named_body [named_declaration] named_return [] named_routes)
    routes_js
  = Ok (read named_routes "elements") /\
  describeRoutes named_body routes_js
  = describeRoutes
      (inlined named_body [named_declaration] named_return [] named_routes)
      routes_js.
Proof.
  apply (named_routes_as_inline named_body routes_js [named_declaration] []
           named_return named_declarator); reflexivity.
Defined.

(* ================================================================== *)
(** * The strategy normalizer: what the specification states *)
(* ================================================================== *)

(** C2.  For the authentication
    [{mode:'optional',strategies:['sessionTokenA','sessionTokenB']}] the
    normalizer returns [{optional: true, type: 'sessionToken'}].  In
    general, for strategies given as string literals: the flag is set by a
    mode whose value is ['try'] or ['optional'] and by nothing else, each
    name is replaced by its canonical token, the tokens are kept once, at
    their first occurrence, and they are joined with [", "]. *)
Theorem authentication_normalizer :
  (forall filePath,
     findRouteAuthentication optional_config filePath
     = Ok (JObj [ ("optional", JBool true);
                  ("type", JStr "sessionToken") ]))
  /\
  (forall mode,
     optional_mode mode = true <->
     truthy mode = true /\
     (strict_equals (read mode "value") (JStr "try") = true \/
      strict_equals (read mode "value") (JStr "optional") = true))
  /\
  (forall routeConfig filePath auth mode strategies elements names,
     findProperty routeConfig "auth" OBJECT_TYPES filePath = Ok auth ->
     truthy auth = true ->
     findProperty auth "mode" LITERAL_TYPES filePath = Ok mode ->
     findProperty auth "strategies" ARRAY_TYPES filePath = Ok strategies ->
     truthy strategies = true ->
     read strategies "elements" = JArr elements ->
     Forall2 names_strategy elements names ->
     String.concat ", " (first_occurrences (map canonical names))
     <> EmptyString ->
     findRouteAuthentication routeConfig filePath
     = Ok (JObj
             [ ("optional", JBool (optional_mode mode));
               ("type",
                JStr (String.concat ", "
                        (first_occurrences (map canonical names)))) ])).
Proof.
  split; [intros filePath; reflexivity|]. split.
  - intros mode. unfold optional_mode.
    rewrite andb_true_iff, orb_true_iff. reflexivity.
  - intros routeConfig filePath auth mode strategies elements names
           Hauth Ha Hmode Hstrategies Hs Helements Hnames Hjoined.
    unfold findRouteAuthentication.
    rewrite Hauth. cbn [bind]. rewrite Ha, Hmode. cbn [bind].
    rewrite optional_mode_read. cbn [bind].
    rewrite Hstrategies. cbn [bind]. rewrite Hs.
    rewrite (get_truthy _ _ Hs), Helements. cbn [bind as_array].
    rewrite (marshalled_names filePath elements names Hnames). cbn [bind].
    rewrite dedupe_first_occurrences, join_names.
    now rewrite (nonempty_truthy _ Hjoined).
Qed.

Lemma authentication_normalizer_witness :
  findRouteAuthentication optional_config routes_js
  = Ok (JObj
          [ ("optional",
             JBool (optional_mode
                      (Literal 12 22 (JStr "optional") "'optional'")));
            ("type",
             JStr (String.concat ", "
                     (first_occurrences
                        (map canonical
                             ["sessionTokenA"; "sessionTokenB"])))) ]).
Proof.
  apply (proj2 (proj2 authentication_normalizer)
           optional_config routes_js optional_auth
           (Literal 12 22 (JStr "optional") "'optional'")
           (ArrayExpression 34 67
              [ Literal 35 50 (JStr "sessionTokenA") "'sessionTokenA'";
                Literal 51 66 (JStr "sessionTokenB") "'sessionTokenB'" ])
           [ Literal 35 50 (JStr "sessionTokenA") "'sessionTokenA'";
             Literal 51 66 (JStr "sessionTokenB") "'sessionTokenB'" ]).
  - reflexivity.
  - reflexivity.
  - reflexivity.
  - reflexivity.
  - reflexivity.
  - reflexivity.
  - repeat constructor.
  - discriminate.
Defined.

(** C6, as the specification states it, fails.  The authentication
    [{mode:m}] has no [strategies] and no [strategy] property; the
    extraction stops on the mode, which is not a literal, with the error
    of [assertType] and not with the one of a missing strategy. *)
Lemma variable_mode_other_error :
  properties_named "strategies" variable_mode_auth = [] /\
  properties_named "strategy" variable_mode_auth = [] /\
  findProperty variable_mode_config "auth" OBJECT_TYPES routes_js
  = Ok variable_mode_auth /\
  findRouteAuthentication variable_mode_config routes_js
  = fail (template ["Expected type [Literal], found "; dquote; "Identifier";
                    dquote; " at column "; dquote; "12"; dquote])
         routes_js (num 1) /\
  get variable_mode_auth "loc" = Ok (JObj [ ("start", position 1 6);
                                            ("end", position 1 14) ]) /\
  findRouteAuthentication variable_mode_config routes_js
  <> fail "Missing authentication strategy" routes_js (num 1).
Proof.
  repeat split. intros H. vm_compute in H. discriminate H.
Qed.

(** C6, amended.  Take an authentication, with its position, whose mode
    is read without error (it is absent or a literal) and in which the
    search finds no property for [strategies] and none for [strategy].
    The extraction fails with ["Missing authentication strategy"], the
    path of the file and the line of the authentication.  And whatever the
    authentication holds, once it is found the extraction never returns
    [undefined], which is what it returns when there is none. *)
Theorem missing_strategy_fails (routeConfig filePath auth : value) :
  findProperty routeConfig "auth" OBJECT_TYPES filePath = Ok auth ->
  truthy auth = true ->
  findRouteAuthentication routeConfig filePath <> Ok JUndefined /\
  forall mode loc start line,
    findProperty auth "mode" LITERAL_TYPES filePath = Ok mode ->
    find (read auth "properties") (propertyCriteria "strategies") into_arrays
    = [] ->
    find (read auth "properties") (propertyCriteria "strategy") into_arrays
    = [] ->
    get auth "loc" = Ok loc -> get loc "start" = Ok start ->
    get start "line" = Ok line ->
    findRouteAuthentication routeConfig filePath
    = fail "Missing authentication strategy" filePath line.
Proof.
  intros Hauth Ha. split.
  - unfold findRouteAuthentication. rewrite Hauth. cbn [bind]. rewrite Ha.
    intros H. do 5 (apply bind_returned in H as [? [_ H]]). discriminate.
  - intros mode loc start line Hmode Hstrategies Hstrategy Hloc Hstart Hline.
    unfold findRouteAuthentication.
    rewrite Hauth. cbn [bind]. rewrite Ha, Hmode. cbn [bind].
    rewrite optional_mode_read. cbn [bind].
    rewrite !(findProperty_found auth (read auth "properties"))
      by now apply get_truthy.
    rewrite Hstrategies, Hstrategy. cbn [bind truthy negb].
    rewrite Hloc. cbn [bind]. rewrite Hstart. cbn [bind]. rewrite Hline.
    reflexivity.
Qed.

Lemma missing_strategy_fails_witness :
  findRouteAuthentication mode_only_config routes_js
  = fail "Missing authentication strategy" routes_js (num 1).
Proof.
  apply (proj2 (missing_strategy_fails mode_only_config routes_js
                  mode_only_auth eq_refl eq_refl)
               (Literal 12 17 (JStr "try") "'try'")
               (read mode_only_auth "loc")
               (position 1 6) (num 1));
    reflexivity.
Defined.

(* ================================================================== *)
(** * The handler: what the specification states *)
(* ================================================================== *)

(** C8.  The route of the example file has the function literal
    [function(){}] as its handler.  [findRouteHandler] accepts the type of
    that node and returns its [value] attribute, which a function node
    does not have: the handler of the route is [undefined], as it is for a
    handler that is a name. *)
Theorem inline_handler_absent :
  properties_named "handler" inline_route
  = [ Property 108 128 false (Identifier 108 115 "handler") inline_handler ] /\
  has FUNCTION_EXPRESSION_TYPES (read inline_handler "type") = true /\
  findRouteHandler inline_route routes_js = Ok JUndefined /\
  findRouteHandler reference_route routes_js = Ok JUndefined /\
  describeFile inline_file routes_js
  = Ok [ {| routeMethod := JStr "GET";
            routePath := JStr "/foo";
            routeAuthentication := authentication false (JStr "sessionToken");
            routeValidation := JUndefined;
            routeResponse := JUndefined;
            routeHandler := JUndefined |} ].
Proof.
  split; [reflexivity|]. split; [reflexivity|]. split; [|split].
  - rewrite (findRouteHandler_function inline_route
               (read inline_route "properties") routes_js
               (Property 108 128 false (Identifier 108 115 "handler")
                         inline_handler) []);
      reflexivity.
  - apply (findRouteHandler_reference reference_route
             (read reference_route "properties") routes_js
             (Property 26 35 false (Identifier 26 33 "handler")
                       (Identifier 34 35 "h")) []);
      reflexivity.
  - vm_compute. reflexivity.
Qed.

(** C10, as the specification states it, fails.  The route
    [{method:'GET',path:'/foo',foo:handler}] has no property named
    [handler]; the search finds the property [foo], whose value is the
    identifier [handler], and the route is described, with no handler. *)
Lemma stray_handler_described :
  properties_named "handler" stray_handler_route = [] /\
  find (read stray_handler_route "properties") (propertyCriteria "handler")
       into_arrays
  = [ Property 26 37 false (Identifier 26 29 "foo")
               (Identifier 30 37 "handler") ] /\
  findRouteHandler stray_handler_route routes_js = Ok JUndefined /\
  describeRoute routes_js stray_handler_route
  = Ok {| routeMethod := JStr "GET";
          routePath := JStr "/foo";
          routeAuthentication := JUndefined;
          routeValidation := JUndefined;
          routeResponse := JUndefined;
          routeHandler := JUndefined |}.
Proof. repeat split. Qed.

(** C10, amended.  When the search finds no property for [handler] in the
    property list of a route (a property whose value is the identifier
    [handler] is found like one whose key is), [findRouteHandler] reads an
    attribute of [undefined] in its first branch and again in its second:
    it throws the error of the engine, not one built by [fail], and the
    route is not described. *)
Theorem missing_handler_aborts (route properties filePath : value) :
  get route "properties" = Ok properties ->
  find properties (propertyCriteria "handler") into_arrays = [] ->
  findProperty route "handler" FUNCTION_EXPRESSION_TYPES filePath
  = Ok JUndefined /\
  findProperty route "handler" IDENTIFIER_TYPES filePath = Ok JUndefined /\
  findRouteHandler route filePath = Throw EngineError /\
  forall d, describeRoute filePath route <> Ok d.
Proof.
  intros Hp Hf.
  rewrite !(findProperty_found route properties) by assumption. rewrite Hf.
  repeat split.
  - now apply (findRouteHandler_nothing_found route properties).
  - apply (describeRoute_needs_handler filePath route EngineError).
    now apply (findRouteHandler_nothing_found route properties).
Qed.

Lemma missing_handler_aborts_witness :
  findProperty no_handler_route "handler" FUNCTION_EXPRESSION_TYPES routes_js
  = Ok JUndefined /\
  findProperty no_handler_route "handler" IDENTIFIER_TYPES routes_js
  = Ok JUndefined /\
  findRouteHandler no_handler_route routes_js = Throw EngineError /\
  forall d, describeRoute routes_js no_handler_route <> Ok d.
Proof.
  apply (missing_handler_aborts no_handler_route
           (read no_handler_route "properties") routes_js);
    reflexivity.
Defined.

(* ================================================================== *)
(** * More on the matcher *)
(* ================================================================== *)

Lemma nodes_unfold (v : value) : nodes v = v :: flat_map nodes (values v).
Proof.
  destruct v as [| | | | |elements|fields]; try reflexivity.
  simpl. f_equal. now rewrite !flat_map_concat_map, map_map.
Qed.

Lemma nodes_child (v child d : value) :
  In child (values v) -> In d (nodes child) -> In d (nodes v).
Proof.
  intros Hc Hd. rewrite nodes_unfold. right.
  apply in_flat_map. now exists child.
Qed.

Lemma flat_map_empty {A B : Type} (f : A -> list B) (l : list A) :
  flat_map f l = [] <-> forall x, In x l -> f x = [].
Proof.
  induction l as [|x l IH]; simpl.
  - split; [intros _ y []|reflexivity].
  - split.
    + intros H y [<-|Hy]; apply app_eq_nil in H as [Hx Hl];
        [exact Hx|now apply IH].
    + intros H. rewrite (H x) by now left. apply IH.
      intros y Hy. apply H. now right.
Qed.

Lemma match_string (node : value) (s : string) :
  match_ node (JStr s) = true <-> node = JStr s.
Proof.
  rewrite match_values. split.
  - intros [[_ [_ H]]|[H _]]; [|discriminate].
    destruct node as [| | |[?|]|s'| |]; try discriminate.
    simpl in H. apply String.eqb_eq in H. now subst.
  - intros ->. left. repeat split. simpl. apply String.eqb_refl.
Qed.

Lemma nan_free_values (v child : value) :
  nan_free v = true -> In child (values v) -> nan_free child = true.
Proof.
  destruct v as [| | | | |elements|fields]; simpl; try contradiction.
  - intros H Hin. now apply (proj1 (forallb_forall _ _) H).
  - intros H Hin. apply in_map_iff in Hin as [e [<- Hin]].
    now apply (proj1 (forallb_forall _ _) H e).
Qed.

(** A tree without [NaN] matches itself. *)
Lemma match_reflexive (v : value) : nan_free v = true -> match_ v v = true.
Proof.
  induction v as [v IH] using value_induction. intros Hn.
  rewrite match_values. destruct (isObject v) eqn:Ev.
  - right. repeat split. intros cv Hcv. exists cv. split; [exact Hcv|].
    apply (IH cv Hcv). now apply (nan_free_values v).
  - left. repeat split.
    destruct v as [| |b|[z|]|s| |]; try discriminate; simpl.
    + reflexivity.
    + reflexivity.
    + now destruct b.
    + apply Z.eqb_refl.
    + apply String.eqb_refl.
Qed.

(** X1.  Whatever [find] returns, with whatever options, is a node of the
    tree searched (the tree itself or something below it) and matches the
    criteria. *)
Theorem find_sound (node criteria : value) (opts : options) (found : value) :
  In found (find node criteria opts) ->
  In found (nodes node) /\ match_ found criteria = true.
Proof.
  intros Hin. split; [|now apply (find_matches criteria opts node)].
  revert found Hin. induction node as [node IH] using value_induction.
  intros found. rewrite find_unfold, nodes_unfold.
  destruct (match_ node criteria).
  - intros [<-|[]]. now left.
  - destruct (isArray node && array opts);
      [|destruct (isObject node && recursive opts)];
      try (intros Hin; apply in_flat_map in Hin as [child [Hc Hf]];
           right; apply in_flat_map; exists child; split;
           [exact Hc|now apply IH]).
    contradiction.
Qed.

Lemma find_sound_witness :
  In named_declarator (nodes named_body) /\
  match_ named_declarator (declaratorCriteria (JStr "routes")) = true.
Proof.
  apply (find_sound named_body (declaratorCriteria (JStr "routes"))
                    recursively named_declarator).
  left. reflexivity.
Defined.

(** X2.  The recursive search misses nothing: it returns the empty list
    exactly when no node of the tree matches the criteria. *)
Theorem find_recursive_complete (node criteria : value) (opts : options) :
  recursive opts = true ->
  find node criteria opts = [] <->
  forall d, In d (nodes node) -> match_ d criteria = false.
Proof.
  intros Hr. induction node as [node IH] using value_induction.
  rewrite find_unfold, Hr, andb_true_r.
  assert (flat_map (fun child => find child criteria opts) (values node) = []
          <-> forall d, In d (flat_map nodes (values node)) ->
                        match_ d criteria = false) as Hchildren.
  { rewrite flat_map_empty. split.
    - intros H d Hd. apply in_flat_map in Hd as [child [Hc Hd]].
      now apply (proj1 (IH child Hc) (H child Hc)).
    - intros H child Hc. apply (IH child Hc). intros d Hd. apply H.
      apply in_flat_map. now exists child. }
  rewrite nodes_unfold. destruct (match_ node criteria) eqn:Em.
  - split; [discriminate|]. intros H.
    rewrite (H node) in Em by now left. discriminate.
  - assert ((if isArray node && array opts
             then flat_map (fun child => find child criteria opts)
                           (values node)
             else if isObject node
                  then flat_map (fun child => find child criteria opts)
                                (values node)
                  else []) =
            flat_map (fun child => find child criteria opts) (values node))
      as ->.
    { destruct (isArray node && array opts); [reflexivity|].
      destruct node; reflexivity. }
    rewrite Hchildren. split.
    + intros H d [<-|Hd]; [exact Em|now apply H].
    + intros H d Hd. apply H. now right.
Qed.

Lemma find_recursive_complete_witness :
  find inline_file (declaratorCriteria (JStr "routes")) recursively = [] <->
  forall d, In d (nodes inline_file) ->
            match_ d (declaratorCriteria (JStr "routes")) = false.
Proof.
  apply (find_recursive_complete inline_file
           (declaratorCriteria (JStr "routes")) recursively).
  reflexivity.
Defined.

(** The search of one level in a list of objects. *)
Lemma find_single_level_objects (elements : list value)
      (criteria scalar : value) :
  isObject criteria = true ->
  In scalar (values criteria) -> isObject scalar = false ->
  (forall e, In e elements -> isObject e = true /\ isArray e = false) ->
  find (JArr elements) criteria into_arrays
  = filter (fun e => match_ e criteria) elements.
Proof.
  intros Hc Hs Hss He.
  assert (match_ (JArr elements) criteria = false) as Hm.
  { destruct (match_ (JArr elements) criteria) eqn:Em; [|reflexivity].
    apply match_values in Em as [[Em _]|[_ [_ Em]]]; [congruence|].
    destruct (Em scalar Hs) as [nv [Hnv Hmatch]].
    rewrite match_scalar_criteria in Hmatch; [discriminate| |exact Hss].
    now apply He. }
  rewrite find_unfold, Hm. simpl. clear Hm.
  induction elements as [|e elements IH]; simpl; [reflexivity|].
  rewrite IH by (intros x Hx; apply He; now right).
  rewrite (find_unfold e). destruct (He e) as [_ Ha]; [now left|].
  rewrite Ha. simpl. rewrite andb_false_r.
  now destruct (match_ e criteria).
Qed.

(** X3.  The search of one level, the one [findProperty] and
    [findReturnedData] run: in a list of objects, none of them an array,
    and for criteria that hold a scalar, [find] with the [array] option
    returns the elements that match, in the order of the list, and looks
    at nothing below them. *)
Theorem find_single_level (elements : list value) (criteria scalar : value) :
  isObject criteria = true ->
  In scalar (values criteria) -> isObject scalar = false ->
  (forall e, In e elements -> isObject e = true /\ isArray e = false) ->
  find (JArr elements) criteria into_arrays
  = filter (fun e => match_ e criteria) elements /\
  forall found, In found (find (JArr elements) criteria into_arrays) ->
                In found elements.
Proof.
  intros Hc Hs Hss He.
  rewrite (find_single_level_objects elements criteria scalar)
    by assumption.
  split; [reflexivity|]. intros found Hf. now apply filter_In in Hf.
Qed.

Lemma find_single_level_witness :
  find (read duplicate_object "properties") (propertyCriteria "a") into_arrays
  = filter (fun e => match_ e (propertyCriteria "a"))
           (values (read duplicate_object "properties")) /\
  forall found,
    In found (find (read duplicate_object "properties")
                   (propertyCriteria "a") into_arrays) ->
    In found (values (read duplicate_object "properties")).
Proof.
  apply (find_single_level (values (read duplicate_object "properties"))
                           (propertyCriteria "a") (JStr "Property")).
  - reflexivity.
  - left. reflexivity.
  - reflexivity.
  - intros e [<-|[<-|[]]]; split; reflexivity.
Defined.

(** X4.  Criteria taken from the node match it: when every value of the
    criteria is a value of the node, under whatever key, and the node
    holds no [NaN], the node matches. *)
Theorem match_subset_criteria (node criteria : value) :
  nan_free node = true ->
  isObject node = true -> isObject criteria = true ->
  incl (values criteria) (values node) ->
  match_ node criteria = true.
Proof.
  intros Hn Ho Hc Hincl. rewrite match_values. right. repeat split;
    try assumption.
  intros cv Hcv. exists cv. split; [now apply Hincl|].
  apply match_reflexive. apply (nan_free_values node); [assumption|].
  now apply Hincl.
Qed.

Lemma match_subset_criteria_witness :
  match_ named_declarator
         (JObj [ ("kind", JStr "VariableDeclarator");
                 ("anything", Identifier 32 38 "routes") ]) = true.
Proof.
  apply (match_subset_criteria named_declarator
           (JObj [ ("kind", JStr "VariableDeclarator");
                   ("anything", Identifier 32 38 "routes") ])).
  - reflexivity.
  - reflexivity.
  - reflexivity.
  - intros v [<-|[<-|[]]]; cbn; tauto.
Defined.

(** X5.  [match] composes: when a node matches [b], and [b] taken as a
    node matches [c], the node matches [c]. *)
Theorem match_transitive (a b c : value) :
  match_ a b = true -> match_ b c = true -> match_ a c = true.
Proof.
  revert b c. induction a as [a IH] using value_induction.
  intros b c Hab Hbc.
  apply match_values in Hab as [[Eb [Ea Hab]]|[Eb [Ea Hab]]];
    apply match_values in Hbc as [[Ec [Eb' Hbc]]|[Ec [Eb' Hbc]]];
    try congruence; apply match_values.
  - left. repeat split; try assumption.
    destruct a as [| |x|[x|]|x| |], b as [| |y|[y|]|y| |]; try discriminate;
      destruct c as [| |z|[z|]|z| |]; try discriminate; simpl in *;
      try reflexivity.
    + apply Bool.eqb_prop in Hab. now subst.
    + apply Z.eqb_eq in Hab. now subst.
    + apply String.eqb_eq in Hab. now subst.
  - right. repeat split; try assumption.
    intros cv Hcv. destruct (Hbc cv Hcv) as [bv [Hbv Hm1]].
    destruct (Hab bv Hbv) as [av [Hav Hm2]].
    exists av. split; [exact Hav|]. now apply (IH av Hav bv cv).
Qed.

Lemma match_transitive_witness :
  match_ named_body (JObj [ ("any", JStr "BlockStatement") ]) = true.
Proof.
  apply (match_transitive named_body
           (JObj [ ("type", JStr "BlockStatement"); ("start", num 25) ])
           (JObj [ ("any", JStr "BlockStatement") ]));
    reflexivity.
Defined.

(** X6.  [match] looks at the values of the node and at nothing else:
    a structural node that holds every value of a node that matches,
    under whatever keys and in whatever order, matches too.  Attributes
    added to a node never make it stop matching. *)
Theorem match_more_values (node node' criteria : value) :
  isObject node = true -> isObject node' = true ->
  incl (values node) (values node') ->
  match_ node criteria = true -> match_ node' criteria = true.
Proof.
  intros Hn Hn' Hincl Hm.
  apply match_values in Hm as [[_ [Hs _]]|[Hc [_ Hm]]]; [congruence|].
  apply match_values. right. repeat split; try assumption.
  intros cv Hcv. destruct (Hm cv Hcv) as [nv [Hnv Hmatch]].
  exists nv. split; [now apply Hincl|exact Hmatch].
Qed.

Lemma match_more_values_witness :
  match_ (JArr [ JStr "init"; Identifier 1 2 "a"; JStr "Property";
                 JNull ])
         (propertyCriteria "a") = true.
Proof.
  apply (match_more_values
           (JObj [ ("type", JStr "Property"); ("key", Identifier 1 2 "a");
                   ("kind", JStr "init") ])
           (JArr [ JStr "init"; Identifier 1 2 "a"; JStr "Property";
                   JNull ])
           (propertyCriteria "a")).
  - reflexivity.
  - reflexivity.
  - intros v [<-|[<-|[<-|[]]]]; cbn; tauto.
  - reflexivity.
Defined.

(** X7.  What the search of [findProperty] accepts: an element is found
    for a name exactly when it is structural and, among the values of its
    attributes, there are the strings ['Property'] and ['init'] and a
    structural value that holds the strings ['Identifier'] and the name.
    The keys under which these values sit play no part: the value of a
    property counts like its key. *)
Theorem property_search_accepts (node : value) (key : string) :
  match_ node (propertyCriteria key) = true <->
  isObject node = true /\
  In (JStr "Property") (values node) /\
  In (JStr "init") (values node) /\
  exists v, In v (values node) /\ isObject v = true /\
            In (JStr "Identifier") (values v) /\ In (JStr key) (values v).
Proof.
  rewrite match_values. split.
  - intros [[H _]|[_ [Hn H]]]; [discriminate|]. split; [exact Hn|].
    destruct (H (JStr "Property")) as [p [Hp Hmp]]; [cbn; tauto|].
    destruct (H (JStr "init")) as [i [Hi Hmi]]; [cbn; tauto|].
    destruct (H (JObj [("type", JStr "Identifier"); ("name", JStr key)]))
      as [v [Hv Hmv]]; [cbn; tauto|].
    apply match_string in Hmp, Hmi. subst p i.
    repeat split; try assumption. exists v. split; [exact Hv|].
    apply match_values in Hmv as [[Hv' _]|[_ [Ho Hmv]]]; [discriminate|].
    split; [exact Ho|].
    destruct (Hmv (JStr "Identifier")) as [t [Ht Hmt]]; [cbn; tauto|].
    destruct (Hmv (JStr key)) as [n [Hn' Hmn]]; [cbn; tauto|].
    apply match_string in Hmt, Hmn. subst t n. now split.
  - intros [Hn [Hp [Hi [v [Hv [Ho [Ht Hk]]]]]]]. right.
    repeat split; try assumption.
    intros cv [<-|[<-|[<-|[]]]].
    + exists (JStr "Property"). split; [exact Hp|]. now apply match_string.
    + exists (JStr "init"). split; [exact Hi|]. now apply match_string.
    + exists v. split; [exact Hv|]. apply match_values. right.
      repeat split; try assumption.
      intros cv [<-|[<-|[]]].
      * exists (JStr "Identifier"). split; [exact Ht|].
        now apply match_string.
      * exists (JStr key). split; [exact Hk|]. now apply match_string.
Qed.

(* ================================================================== *)
(** * More on the assertions and on the returned data *)
(* ================================================================== *)

Lemma strict_equals_string (v : value) (s : string) :
  strict_equals v (JStr s) = true -> v = JStr s.
Proof.
  destruct v as [| | |[?|]|s'| |]; try discriminate.
  simpl. intros H. apply String.eqb_eq in H. now subst.
Qed.

Lemma has_single (type : string) (v : value) :
  has [type] v = true -> v = JStr type.
Proof.
  destruct v as [| | |[?|]|s| |]; try discriminate.
  simpl. rewrite orb_false_r. intros H. apply String.eqb_eq in H. now subst.
Qed.

Lemma exactly_one {A : Type} (l : list A) (filePath : value)
      (message : string) :
  (if negb (List.length l =? 1)%nat
   then fail message filePath JUndefined else Ok tt) = Ok tt ->
  exists x, l = [x].
Proof.
  destruct l as [|x [|y l]]; try discriminate. intros _. now exists x.
Qed.

(** The error of [assertType] for a node that has its position. *)
Lemma assertType_positioned (node : value) (types : list string)
      (filePath start line column : value) :
  truthy node = true -> has types (read node "type") = false ->
  get (read node "loc") "start" = Ok start ->
  get start "line" = Ok line -> get start "column" = Ok column ->
  assertType node types filePath
  = fail (template ["Expected type ["; type_names types; "], found ";
                    dquote; to_string (read node "type"); dquote;
                    " at column "; dquote; to_string column; dquote])
         filePath line.
Proof.
  intros Ht Hh Hs Hl Hc. unfold assertType.
  rewrite Ht, !(get_truthy _ _ Ht). cbn [negb bind]. rewrite Hh.
  cbn [negb bind]. rewrite Hs. cbn [bind]. rewrite Hl. cbn [bind].
  now rewrite Hc.
Qed.

(** X8.  [assertType] returns exactly for the nodes that are truthy and
    whose [type] is one of the strings asked for; in every other case it
    throws. *)
Theorem assertType_returns_iff (node : value) (types : list string)
        (filePath : value) :
  assertType node types filePath = Ok tt <->
  truthy node = true /\ has types (read node "type") = true.
Proof.
  split.
  - apply assertType_accepted.
  - intros [Ht Hh]. now apply assertType_accepts.
Qed.

(** X9.  The error of [assertType] for a node of another type.  When the
    node has its position, the error is the one of [fail], with the path
    of the file, the line of the node and, in the message, the type found
    and the column.  When the node has no [loc] (a tree parsed without
    locations), reading the position throws the error of the engine
    instead. *)
Theorem assertType_wrong_type (node : value) (types : list string)
        (filePath : value) :
  truthy node = true -> has types (read node "type") = false ->
  (read node "loc" = JUndefined ->
   assertType node types filePath = Throw EngineError) /\
  (forall start line column,
     get (read node "loc") "start" = Ok start ->
     get start "line" = Ok line -> get start "column" = Ok column ->
     assertType node types filePath
     = fail (template ["Expected type ["; type_names types; "], found ";
                       dquote; to_string (read node "type"); dquote;
                       " at column "; dquote; to_string column; dquote])
            filePath line).
Proof.
  intros Ht Hh. split.
  - intros Hloc. unfold assertType.
    rewrite Ht, !(get_truthy _ _ Ht). cbn [negb bind]. rewrite Hh.
    cbn [negb bind]. now rewrite Hloc.
  - intros start line column Hs Hl Hc.
    now apply (assertType_positioned node types filePath start line column).
Qed.

Lemma assertType_wrong_type_witness :
  assertType (Identifier 12 13 "m") LITERAL_TYPES routes_js
  = fail (template ["Expected type ["; type_names LITERAL_TYPES; "], found ";
                    dquote; "Identifier"; dquote;
                    " at column "; dquote; "12"; dquote])
         routes_js (num 1).
Proof.
  apply (proj2 (assertType_wrong_type (Identifier 12 13 "m") LITERAL_TYPES
                  routes_js eq_refl eq_refl)
               (position 1 12) (num 1) (num 12));
    reflexivity.
Defined.

(** X10.  What [findExportedFunction] returns is the body of the one
    export of the file: it returns only when the recursive search finds
    exactly one export statement, whose right-hand side is a function
    expression or an arrow function, and then it returns the [body] of
    that function. *)
Theorem findExportedFunction_returned (ast filePath body : value) :
  findExportedFunction ast filePath = Ok body ->
  exists statement right,
    find ast exportCriteria recursively = [statement] /\
    get (read statement "expression") "right" = Ok right /\
    truthy right = true /\
    has FUNCTION_EXPRESSION_TYPES (read right "type") = true /\
    body = read right "body".
Proof.
  unfold findExportedFunction. intros H.
  apply bind_returned in H as [[] [Hone H]].
  apply exactly_one in Hone as [statement Hone]. rewrite Hone in H.
  cbn [first hd] in H.
  assert (isObject statement = true) as Ho.
  { apply (match_structural statement exportCriteria); [reflexivity|].
    apply (find_matches _ recursively ast). rewrite Hone. now left. }
  rewrite (get_structural _ _ Ho) in H. cbn [bind] in H.
  apply bind_returned in H as [right [Hr H]].
  apply bind_returned in H as [[] [Ha H]].
  apply assertType_accepted in Ha as [Ht Hh].
  rewrite (get_truthy _ _ Ht) in H. injection H as <-.
  now exists statement, right.
Qed.

Lemma findExportedFunction_returned_witness :
  exists statement right,
    find arrow_file exportCriteria recursively = [statement] /\
    get (read statement "expression") "right" = Ok right /\
    truthy right = true /\
    has FUNCTION_EXPRESSION_TYPES (read right "type") = true /\
    arrow_body = read right "body".
Proof.
  apply (findExportedFunction_returned arrow_file routes_js arrow_body).
  reflexivity.
Defined.

(** X11.  A body that is not a block is never extracted: whatever the
    body is, [findReturnedData] calls [assertType] on a variable that has
    no value yet and throws ["Expected type [ReturnStatement], found
    nothing"], with the path of the file and no line. *)
Theorem findReturnedData_needs_block (functionNode filePath type : value) :
  get functionNode "type" = Ok type ->
  strict_equals type (JStr "BlockStatement") = false ->
  findReturnedData functionNode filePath
  = fail "Expected type [ReturnStatement], found nothing" filePath JUndefined.
Proof.
  intros Ht Hb. unfold findReturnedData. rewrite Ht. cbn [bind].
  rewrite Hb. reflexivity.
Qed.

Lemma findReturnedData_needs_block_witness :
  findReturnedData (Identifier 19 25 "routes") routes_js
  = fail "Expected type [ReturnStatement], found nothing" routes_js
         JUndefined.
Proof.
  apply (findReturnedData_needs_block (Identifier 19 25 "routes") routes_js
                                      (JStr "Identifier"));
    reflexivity.
Defined.

(** X12.  What [findReturnedData] returns is always the [elements] of an
    array literal: it returns only for a block in which the search finds
    exactly one return statement, and the array is either the argument of
    that statement or, when the argument is an identifier, the initialiser
    of the one declarator that the recursive search finds for its name. *)
Theorem findReturnedData_returned (functionNode filePath elements : value) :
  findReturnedData functionNode filePath = Ok elements ->
  read functionNode "type" = JStr "BlockStatement" /\
  exists ret arrayLiteral,
    find (read functionNode "body") returnCriteria into_arrays = [ret] /\
    read arrayLiteral "type" = JStr "ArrayExpression" /\
    elements = read arrayLiteral "elements" /\
    (arrayLiteral = read ret "argument" \/
     (read (read ret "argument") "type" = JStr "Identifier" /\
      exists declarator,
        find functionNode
             (declaratorCriteria (read (read ret "argument") "name"))
             recursively = [declarator] /\
        arrayLiteral = read declarator "init")).
Proof.
  unfold findReturnedData. intros H.
  apply bind_returned in H as [type [Ht H]].
  assert (get functionNode "type" = Ok (read functionNode "type")) as Hg
    by (destruct functionNode; try discriminate; reflexivity).
  assert (forall k, get functionNode k = Ok (read functionNode k)) as Hget
    by (intros k; destruct functionNode; try discriminate; reflexivity).
  rewrite Hg in Ht. injection Ht as <-.
  apply bind_returned in H as [returnedData [Hd H]].
  destruct (strict_equals (read functionNode "type") (JStr "BlockStatement"))
    eqn:Eb; [|discriminate].
  split; [now apply strict_equals_string|].
  rewrite Hget in Hd. cbn [bind] in Hd.
  apply bind_returned in Hd as [[] [Hone Hd]].
  apply exactly_one in Hone as [ret Hone]. rewrite Hone in Hd.
  cbn [first hd] in Hd.
  assert (isObject ret = true) as Ho.
  { apply (match_structural ret returnCriteria); [reflexivity|].
    apply (find_matches _ into_arrays (read functionNode "body")).
    rewrite Hone. now left. }
  rewrite (get_structural _ _ Ho) in Hd. injection Hd as <-.
  unfold resolveReturnedData in H.
  apply bind_returned in H as [returnedType [Hrt H]].
  apply bind_returned in H as [arrayLiteral [Hres H]].
  apply bind_returned in H as [[] [Ha H]].
  apply assertType_accepted in Ha as [Hta Hha].
  apply has_single in Hha. rewrite (get_truthy _ _ Hta) in H.
  injection H as <-.
  exists ret, arrayLiteral. repeat split; try assumption.
  assert (returnedType = read (read ret "argument") "type") as ->.
  { destruct (read ret "argument"); try discriminate;
      cbn [get] in Hrt; congruence. }
  destruct (strict_equals (read (read ret "argument") "type")
                          (JStr "Identifier")) eqn:Ei.
  - right. split; [now apply strict_equals_string|].
    apply bind_returned in Hres as [name [Hname Hres]].
    assert (name = read (read ret "argument") "name") as ->.
    { destruct (read ret "argument"); try discriminate;
        cbn [get] in Hname; congruence. }
    apply bind_returned in Hres as [[] [Hone' Hres]].
    apply exactly_one in Hone' as [declarator Hone'].
    rewrite Hone' in Hres. cbn [first hd] in Hres.
    assert (isObject declarator = true) as Hod.
    { apply (match_structural declarator
               (declaratorCriteria (read (read ret "argument") "name")));
        [reflexivity|].
      apply (find_matches _ recursively functionNode).
      rewrite Hone'. now left. }
    rewrite (get_structural _ _ Hod) in Hres. injection Hres as <-.
    now exists declarator.
  - left. now injection Hres as <-.
Qed.

Lemma findReturnedData_returned_witness :
  read named_body "type" = JStr "BlockStatement" /\
  exists ret arrayLiteral,
    find (read named_body "body") returnCriteria into_arrays = [ret] /\
    read arrayLiteral "type" = JStr "ArrayExpression" /\
    read named_routes "elements" = read arrayLiteral "elements" /\
    (arrayLiteral = read ret "argument" \/
     (read (read ret "argument") "type" = JStr "Identifier" /\
      exists declarator,
        find named_body
             (declaratorCriteria (read (read ret "argument") "name"))
             recursively = [declarator] /\
        arrayLiteral = read declarator "init")).
Proof.
  apply (findReturnedData_returned named_body routes_js
                                   (read named_routes "elements")).
  reflexivity.
Defined.

(** X13.  A block whose one return statement returns nothing
    ([return;], the argument is [null]) makes [findReturnedData] read the
    type of [null]: it throws the error of the engine, not an error of
    [fail]. *)
Theorem findReturnedData_bare_return (functionNode filePath ret : value) :
  read functionNode "type" = JStr "BlockStatement" ->
  find (read functionNode "body") returnCriteria into_arrays = [ret] ->
  read ret "argument" = JNull ->
  findReturnedData functionNode filePath = Throw EngineError.
Proof.
  intros Ht Hr Ha. destruct (read_typed _ _ Ht) as [fields ->].
  assert (isObject ret = true) as Ho.
  { apply (match_structural ret returnCriteria); [reflexivity|].
    apply (find_matches _ into_arrays (read (JObj fields) "body")).
    rewrite Hr. now left. }
  unfold findReturnedData. cbn [get bind]. rewrite Ht.
  cbn [strict_equals String.eqb Ascii.eqb Bool.eqb bind]. rewrite Hr.
  cbn [List.length Nat.eqb negb bind first hd].
  rewrite (get_structural _ _ Ho), Ha. reflexivity.
Qed.

Lemma findReturnedData_bare_return_witness :
  findReturnedData bare_return_body routes_js = Throw EngineError.
Proof.
  apply (findReturnedData_bare_return bare_return_body routes_js
                                      (ReturnStatement 26 33 JNull));
    reflexivity.
Defined.

(** X14.  The return statements are counted among the statements of the
    block and nowhere else.  For a block whose statements are objects,
    the number counted is the number of statements that match, and when
    it is not one the extraction fails with ["Expected 1 return
    statement, found N"]: a return statement inside another statement is
    not seen. *)
Theorem findReturnedData_counts_statements
        (functionNode filePath : value) (statements : list value) :
  read functionNode "type" = JStr "BlockStatement" ->
  read functionNode "body" = JArr statements ->
  (forall s, In s statements -> isObject s = true /\ isArray s = false) ->
  List.length (filter (fun s => match_ s returnCriteria) statements) <> 1%nat ->
  findReturnedData functionNode filePath
  = fail (template
            ["Expected 1 return statement, found ";
             to_string
               (length_of (filter (fun s => match_ s returnCriteria)
                                  statements))])
         filePath JUndefined.
Proof.
  intros Ht Hb Hs Hn. destruct (read_typed _ _ Ht) as [fields ->].
  unfold findReturnedData. cbn [get bind]. rewrite Ht.
  cbn [strict_equals String.eqb Ascii.eqb Bool.eqb bind]. rewrite Hb.
  rewrite (find_single_level_objects statements returnCriteria
             (JStr "ReturnStatement")); try assumption; try reflexivity;
    [|now left].
  apply Nat.eqb_neq in Hn. rewrite Hn. reflexivity.
Qed.

Lemma findReturnedData_counts_statements_witness :
  findReturnedData nested_return_body routes_js
  = fail (template ["Expected 1 return statement, found "; "0"])
         routes_js JUndefined.
Proof.
  apply (findReturnedData_counts_statements nested_return_body routes_js
                                            [nested_return_statement]).
  - reflexivity.
  - reflexivity.
  - intros s [<-|[]]. split; reflexivity.
  - cbn. discriminate.
Defined.

(* ================================================================== *)
(** * More on the property extractor and on the routes *)
(* ================================================================== *)

(** X15.  What [findProperty] returns.  It returns [undefined] exactly
    when the search of the property list finds nothing; otherwise it
    returns the [value] of the first element found, which is then truthy
    and has one of the types asked for: a value of another type is never
    returned. *)
Theorem findProperty_returned (node : value) (key : string)
        (types : list string) (filePath found : value) :
  findProperty node key types filePath = Ok found ->
  exists properties,
    get node "properties" = Ok properties /\
    ((find properties (propertyCriteria key) into_arrays = [] /\
      found = JUndefined)
     \/
     (exists element rest,
        find properties (propertyCriteria key) into_arrays = element :: rest /\
        found = read element "value" /\
        truthy found = true /\
        has types (read found "type") = true)).
Proof.
  intros H. destruct (get node "properties") as [properties|e] eqn:Hp.
  2: { unfold findProperty in H. rewrite Hp in H. discriminate. }
  exists properties. split; [reflexivity|].
  rewrite (findProperty_found node properties) in H by assumption.
  destruct (find properties (propertyCriteria key) into_arrays)
    as [|element rest].
  - left. split; [reflexivity|]. now injection H as <-.
  - right. exists element, rest.
    apply bind_returned in H as [[] [Ha H]]. injection H as <-.
    apply assertType_accepted in Ha as [Ht Hh]. now repeat split.
Qed.

Lemma findProperty_returned_witness :
  exists properties,
    get duplicate_object "properties" = Ok properties /\
    ((find properties (propertyCriteria "a") into_arrays = [] /\
      Literal 3 4 (num 1) "1" = JUndefined)
     \/
     (exists element rest,
        find properties (propertyCriteria "a") into_arrays = element :: rest /\
        Literal 3 4 (num 1) "1" = read element "value" /\
        truthy (Literal 3 4 (num 1) "1") = true /\
        has LITERAL_TYPES (read (Literal 3 4 (num 1) "1") "type") = true)).
Proof.
  apply (findProperty_returned duplicate_object "a" LITERAL_TYPES routes_js
                               (Literal 3 4 (num 1) "1")).
  reflexivity.
Defined.

(** X16.  A node without property list has no property: when the
    [properties] attribute of the node is missing, or is a scalar,
    [findProperty] returns [undefined] and raises no error, whatever the
    name and the types asked for.  Only a node that is itself [undefined]
    or [null] makes it throw, the error of the engine. *)
Theorem findProperty_without_list (node : value) (key : string)
        (types : list string) (filePath : value) :
  (node = JUndefined \/ node = JNull ->
   findProperty node key types filePath = Throw EngineError) /\
  (forall properties,
     get node "properties" = Ok properties ->
     isObject properties = false ->
     findProperty node key types filePath = Ok JUndefined).
Proof.
  split.
  - intros [->| ->]; reflexivity.
  - intros properties Hp Ho.
    rewrite (findProperty_found node properties) by assumption.
    rewrite find_unfold, match_unfold, Ho.
    assert (strict_equals properties (propertyCriteria key) = false) as ->
      by (destruct properties as [| | |[?|]| | |]; reflexivity).
    destruct properties; try discriminate; reflexivity.
Qed.

Lemma findProperty_without_list_witness :
  findProperty (Literal 3 4 (num 1) "1") "value" LITERAL_TYPES routes_js
  = Ok JUndefined.
Proof.
  apply (proj2 (findProperty_without_list (Literal 3 4 (num 1) "1") "value"
                  LITERAL_TYPES routes_js)
               JUndefined);
    reflexivity.
Defined.

Lemma describeRoute_needs_method (filePath route : value) (e : thrown) :
  findRouteMethod route filePath = Throw e ->
  forall d, describeRoute filePath route <> Ok d.
Proof.
  intros Hh d Hd. unfold describeRoute in Hd.
  do 1 (apply bind_returned in Hd as [? [_ Hd]]).
  rewrite Hh in Hd. discriminate.
Qed.

Lemma describeRoute_needs_path (filePath route : value) (e : thrown) :
  findRoutePath route filePath = Throw e ->
  forall d, describeRoute filePath route <> Ok d.
Proof.
  intros Hh d Hd. unfold describeRoute in Hd.
  do 2 (apply bind_returned in Hd as [? [_ Hd]]).
  rewrite Hh in Hd. discriminate.
Qed.

(** X17.  The method and the path of a route are required, and their
    absence is not reported by [fail]: when the search finds no property
    for [method] (or none for [path]), [findRouteMethod] (or
    [findRoutePath]) reads the [value] of [undefined] and throws the error
    of the engine, and the route is not described. *)
Theorem route_method_path_required (route properties filePath : value) :
  get route "properties" = Ok properties ->
  (find properties (propertyCriteria "method") into_arrays = [] ->
   findRouteMethod route filePath = Throw EngineError /\
   forall d, describeRoute filePath route <> Ok d) /\
  (find properties (propertyCriteria "path") into_arrays = [] ->
   findRoutePath route filePath = Throw EngineError /\
   forall d, describeRoute filePath route <> Ok d).
Proof.
  intros Hp. split; intros Hf.
  - assert (findRouteMethod route filePath = Throw EngineError) as H.
    { unfold findRouteMethod.
      rewrite (findProperty_found route properties) by assumption.
      now rewrite Hf. }
    split; [exact H|]. now apply (describeRoute_needs_method _ _ EngineError).
  - assert (findRoutePath route filePath = Throw EngineError) as H.
    { unfold findRoutePath.
      rewrite (findProperty_found route properties) by assumption.
      now rewrite Hf. }
    split; [exact H|]. now apply (describeRoute_needs_path _ _ EngineError).
Qed.

Lemma route_method_path_required_witness :
  findRouteMethod no_method_route routes_js = Throw EngineError /\
  forall d, describeRoute routes_js no_method_route <> Ok d.
Proof.
  apply (proj1 (route_method_path_required no_method_route
                  (read no_method_route "properties") routes_js eq_refl)).
  reflexivity.
Defined.



(* ================================================================== *)
(** * More on the strategy normalizer *)
(* ================================================================== *)

(** X19.  What [findRouteAuthentication] returns.  It returns [undefined]
    exactly when the [config] has no [auth]; when there is one, what it
    returns is the object [{optional, type}], with these two attributes
    and no other, whose [type] is truthy: an authentication without type
    is never returned. *)
Theorem findRouteAuthentication_returned (routeConfig filePath r : value) :
  findRouteAuthentication routeConfig filePath = Ok r ->
  exists auth,
    findProperty routeConfig "auth" OBJECT_TYPES filePath = Ok auth /\
    ((truthy auth = false /\ r = JUndefined)
     \/
     (truthy auth = true /\
      exists optional type,
        r = JObj [ ("optional", JBool optional); ("type", type) ] /\
        truthy type = true)).
Proof.
  unfold findRouteAuthentication. intros H.
  apply bind_returned in H as [auth [Hauth H]]. exists auth.
  split; [exact Hauth|]. destruct (truthy auth) eqn:Ha.
  - right. split; [reflexivity|].
    apply bind_returned in H as [mode [_ H]].
    apply bind_returned in H as [optional [_ H]].
    apply bind_returned in H as [strategies [_ H]].
    apply bind_returned in H as [type [_ H]].
    apply bind_returned in H as [[] [Hcheck H]].
    injection H as <-. exists optional, type. split; [reflexivity|].
    destruct (truthy type); [reflexivity|]. cbn [negb] in Hcheck.
    do 3 (apply bind_returned in Hcheck as [? [_ Hcheck]]). discriminate.
  - left. split; [reflexivity|]. now injection H as <-.
Qed.

Lemma findRouteAuthentication_returned_witness :
  exists auth,
    findProperty optional_config "auth" OBJECT_TYPES routes_js = Ok auth /\
    ((truthy auth = false /\
      JObj [ ("optional", JBool true); ("type", JStr "sessionToken") ]
      = JUndefined)
     \/
     (truthy auth = true /\
      exists optional type,
        JObj [ ("optional", JBool true); ("type", JStr "sessionToken") ]
        = JObj [ ("optional", JBool optional); ("type", type) ] /\
        truthy type = true)).
Proof.
  apply (findRouteAuthentication_returned optional_config routes_js
           (JObj [ ("optional", JBool true);
                   ("type", JStr "sessionToken") ])).
  reflexivity.
Defined.





(** X22.  [marshallStrategy] is a normal form: its result is
    ['sessionToken'], ['keyFetchToken'] or the value it was given, and
    applying it to its own result changes nothing. *)
Theorem marshallStrategy_idempotent (strategy : value) :
  (marshallStrategy strategy = JStr "sessionToken" \/
   marshallStrategy strategy = JStr "keyFetchToken" \/
   marshallStrategy strategy = strategy) /\
  marshallStrategy (marshallStrategy strategy) = marshallStrategy strategy.
Proof.
  unfold marshallStrategy.
  destruct (prefix "sessionToken" (to_string strategy)) eqn:Es.
  - split; [now left|reflexivity].
  - destruct (prefix "keyFetchToken" (to_string strategy)) eqn:Ek.
    + split; [right; now left|reflexivity].
    + split; [right; now right|]. now rewrite Es, Ek.
Qed.

Lemma first_occurrences_distinct (names : list string) :
  NoDup names -> first_occurrences names = names.
Proof.
  induction names as [|x names IH]; intros H; [reflexivity|].
  inversion H as [|? ? Hx Hn]; subst. simpl. rewrite (IH Hn). f_equal.
  clear IH H Hn. induction names as [|y names IH]; [reflexivity|].
  simpl. destruct (String.eqb_spec y x) as [->|_].
  - exfalso. apply Hx. now left.
  - simpl. f_equal. apply IH. intros Hin. apply Hx. now right.
Qed.

(** X23.  The deduplication of the strategy names.  For names that are
    strings, the list that the [reduce] builds holds every name of the
    input and no other, holds none twice, keeps the names in the order of
    their first occurrence, and is left as it is when deduplicated
    again. *)
Theorem dedupe_distinct (names : list string) :
  exists kept,
    dedupe (map JStr names) = map JStr kept /\
    NoDup kept /\
    (forall name, In name kept <-> In name names) /\
    kept = first_occurrences names /\
    dedupe (dedupe (map JStr names)) = dedupe (map JStr names).
Proof.
  exists (first_occurrences names). repeat split.
  - apply dedupe_first_occurrences.
  - apply first_occurrences_NoDup.
  - apply first_occurrences_In.
  - apply first_occurrences_In.
  - rewrite !dedupe_first_occurrences.
    now rewrite (first_occurrences_distinct _ (first_occurrences_NoDup names)).
Qed.

(* ================================================================== *)
(** * The routes of a body *)
(* ================================================================== *)

Lemma map_result_each {A B : Type} (f : A -> result B) (l : list A)
      (r : list B) :
  map_result f l = Ok r <-> Forall2 (fun x y => f x = Ok y) l r.
Proof.
  revert r. induction l as [|x l IH]; intros r; simpl.
  - split.
    + intros [= <-]. constructor.
    + intros H. now inversion H.
  - split.
    + intros H. apply bind_returned in H as [y [Hy H]].
      apply bind_returned in H as [ys [Hys H]]. injection H as <-.
      constructor; [exact Hy|now apply IH].
    + intros H. inversion H as [|? y ? ys Hy Hys]; subst.
      rewrite Hy. cbn [bind]. apply IH in Hys. now rewrite Hys.
Qed.

(** X24.  One descriptor for each route, in the order of the array, or
    none at all: when [describeRoutes] returns, the data returned by the
    body is an array, each of its elements was described without error
    and the descriptors are theirs, one for one. *)
Theorem describeRoutes_each_route (functionNode filePath : value)
        (descriptors : list descriptor) :
  describeRoutes functionNode filePath = Ok descriptors ->
  exists routes,
    findReturnedData functionNode filePath = Ok (JArr routes) /\
    List.length descriptors = List.length routes /\
    Forall2 (fun route described => describeRoute filePath route = Ok described)
            routes descriptors.
Proof.
  unfold describeRoutes. intros H.
  apply bind_returned in H as [data [Hd H]].
  apply bind_returned in H as [routes [Hr H]].
  destruct data; try discriminate. injection Hr as ->.
  exists routes. apply map_result_each in H. repeat split; try assumption.
  symmetry. now apply (Forall2_length H).
Qed.

Lemma describeRoutes_each_route_witness :
  exists routes,
    findReturnedData named_body routes_js = Ok (JArr routes) /\
    List.length
      [ {| routeMethod := JStr "GET";
           routePath := JStr "/foo";
           routeAuthentication := JUndefined;
           routeValidation := JUndefined;
           routeResponse := JUndefined;
           routeHandler := JUndefined |} ]
    = List.length routes /\
    Forall2 (fun route described =>
               describeRoute routes_js route = Ok described)
            routes
            [ {| routeMethod := JStr "GET";
                 routePath := JStr "/foo";
                 routeAuthentication := JUndefined;
                 routeValidation := JUndefined;
                 routeResponse := JUndefined;
                 routeHandler := JUndefined |} ].
Proof.
  apply (describeRoutes_each_route named_body routes_js).
  reflexivity.
Defined.

(* ================================================================== *)
(** * The slug and the name of the module *)
(* ================================================================== *)

Lemma append_empty (s : string) : (s ++ EmptyString)%string = s.
Proof. induction s as [|c s IH]; simpl; [reflexivity|]. now rewrite IH. Qed.

Lemma append_associative (a b c : string) :
  ((a ++ b) ++ c)%string = (a ++ (b ++ c))%string.
Proof. induction a as [|x a IH]; simpl; [reflexivity|]. now rewrite IH. Qed.

Lemma toLowerCase_append (a b : string) :
  toLowerCase (a ++ b) = (toLowerCase a ++ toLowerCase b)%string.
Proof. induction a as [|c a IH]; simpl; [reflexivity|]. now rewrite IH. Qed.

Lemma replace_each_append (class : ascii -> bool) (replacement a b : string) :
  replace_each class replacement (a ++ b)
  = (replace_each class replacement a
     ++ replace_each class replacement b)%string.
Proof.
  induction a as [|c a IH]; simpl; [reflexivity|].
  rewrite IH. destruct (class c); [|reflexivity].
  now rewrite append_associative.
Qed.

Lemma getSlug_append_parts (a b : string) :
  getSlug (a ++ b) = (getSlug a ++ getSlug b)%string.
Proof.
  unfold getSlug.
  now rewrite toLowerCase_append, !replace_each_append.
Qed.

Lemma removed_are_slug_units (s : string) :
  forallb slug_unit
          (list_ascii_of_string
             (replace_each (fun c => negb (slug_unit c)) EmptyString s))
  = true.
Proof.
  induction s as [|c s IH]; simpl; [reflexivity|].
  destruct (slug_unit c) eqn:E; simpl; [now rewrite E|exact IH].
Qed.

(** A code unit of a slug is no capital letter and no whitespace. *)
Lemma slug_unit_stable (c : ascii) :
  slug_unit c = true -> lower_unit c = c /\ whitespace c = false.
Proof.
  destruct c as [[] [] [] [] [] [] [] []]; vm_compute;
    intros H; try discriminate H; split; reflexivity.
Qed.

Lemma slug_stable (s : string) :
  forallb slug_unit (list_ascii_of_string s) = true -> getSlug s = s.
Proof.
  unfold getSlug. induction s as [|c s IH]; [reflexivity|].
  cbn [list_ascii_of_string forallb]. intros H.
  apply andb_true_iff in H as [Hc Hs].
  destruct (slug_unit_stable c Hc) as [Hl Hw].
  cbn [toLowerCase replace_each]. rewrite Hl, Hw.
  cbn [replace_each]. rewrite Hc. cbn [negb]. f_equal. now apply IH.
Qed.

(** X25.  A slug is made of the code units of [[a-z0-9_-]] and of no
    other: whatever the title, every code unit of [getSlug] of it is a
    small letter, a digit, an underscore or a hyphen. *)
Theorem getSlug_alphabet (title : string) :
  forallb (fun c => between 97 122 c || between 48 57 c
                    || (nat_of_ascii c =? 95)%nat
                    || (nat_of_ascii c =? 45)%nat)
          (list_ascii_of_string (getSlug title))
  = true.
Proof.
  unfold getSlug. apply removed_are_slug_units.
Qed.

(** X26.  [getSlug] works code unit by code unit and is a normal form:
    the slug of two strings put together is their slugs put together, the
    slug of a title [method path] is the two slugs with a hyphen between
    them, and the slug of a slug is itself. *)
Theorem getSlug_compositional (a b : string) :
  getSlug (a ++ b) = (getSlug a ++ getSlug b)%string /\
  getSlug (template [a; " "; b]) = (getSlug a ++ "-" ++ getSlug b)%string /\
  getSlug (getSlug a) = getSlug a.
Proof.
  split; [apply getSlug_append_parts|]. split.
  - unfold template. cbn [String.concat].
    change (EmptyString ++ " ")%string with " ".
    change (" " ++ EmptyString ++ b)%string with (" " ++ b)%string.
    cbn [append].
    now rewrite !getSlug_append_parts.
  - apply slug_stable. unfold getSlug. apply removed_are_slug_units.
Qed.

Lemma capital_of_small (c : ascii) :
  between 97 122 c = true ->
  between 97 122 (ascii_of_nat (nat_of_ascii c - 32)) = false /\
  lower_unit (ascii_of_nat (nat_of_ascii c - 32)) = lower_unit c.
Proof.
  destruct c as [[] [] [] [] [] [] [] []]; vm_compute;
    intros H; try discriminate H; split; reflexivity.
Qed.

(** X27.  The name of a module is the base name of its file with a
    capital first letter: for whatever [path.basename] returns, the name
    has its length, differs from it by the case of letters only, and does
    not begin with a small letter, so that capitalising it again changes
    nothing. *)
Theorem getModuleName_capital (basename : string -> string -> string)
        (filePath : string) :
  String.length (getModuleName basename filePath)
  = String.length (basename filePath ".js") /\
  toLowerCase (getModuleName basename filePath)
  = toLowerCase (basename filePath ".js") /\
  capitalise (getModuleName basename filePath)
  = getModuleName basename filePath.
Proof.
  unfold getModuleName. destruct (basename filePath ".js") as [|c rest].
  - repeat split.
  - simpl. destruct (between 97 122 c) eqn:E.
    + destruct (capital_of_small c E) as [Hc Hl]. simpl.
      rewrite Hc, Hl. repeat split.
    + simpl. rewrite E. repeat split.
Qed.

(* ================================================================== *)
(** * The document of the files *)
(* ================================================================== *)

Lemma join_documents_empty (doc : document) :
  join_documents doc empty_document = doc.
Proof.
  destruct doc as [c b]. unfold join_documents. simpl.
  now rewrite !append_empty.
Qed.

Lemma join_documents_associative (a b c : document) :
  join_documents (join_documents a b) c
  = join_documents a (join_documents b c).
Proof.
  unfold join_documents. simpl. now rewrite !append_associative.
Qed.

Lemma append_body_join (text : string) (a x : document) :
  append_body text (join_documents a x)
  = join_documents a (append_body text x).
Proof.
  unfold append_body, join_documents. simpl. now rewrite append_associative.
Qed.

Lemma append_contents_join (text : string) (a x : document) :
  append_contents text (join_documents a x)
  = join_documents a (append_contents text x).
Proof.
  unfold append_contents, join_documents. simpl.
  now rewrite append_associative.
Qed.

Lemma fold_result_app {A B : Type} (f : B -> A -> result B) (l1 l2 : list A)
      (init : B) :
  fold_result f (l1 ++ l2) init
  = (acc <- fold_result f l1 init ;; fold_result f l2 acc).
Proof.
  revert init. induction l1 as [|x l1 IH]; intros init; simpl; [reflexivity|].
  destruct (f init x) as [acc|e]; simpl; [apply IH|reflexivity].
Qed.

(** A loop that only appends to the document it is given can be run on
    the empty document, and its result appended. *)
Lemma fold_result_shift {A : Type} (f : document -> A -> result document)
      (l : list A) :
  (forall a x item,
     f (join_documents a x) item
     = (r <- f x item ;; Ok (join_documents a r))) ->
  forall a x,
    fold_result f l (join_documents a x)
    = (r <- fold_result f l x ;; Ok (join_documents a r)).
Proof.
  intros Hf. induction l as [|item l IH]; intros a x; simpl; [reflexivity|].
  rewrite Hf. destruct (f x item) as [r|e]; simpl; [apply IH|reflexivity].
Qed.

Lemma fold_result_described {A B C : Type} (f : A -> result B)
      (g : B -> C -> C) (l : list A) (init : C) :
  fold_result (fun acc x => y <- f x ;; Ok (g y acc)) l init
  = (ys <- map_result f l ;; Ok (fold_left (fun acc y => g y acc) ys init)).
Proof.
  revert init. induction l as [|x l IH]; intros init; simpl; [reflexivity|].
  destruct (f x) as [y|e]; simpl; [|reflexivity].
  rewrite IH. now destruct (map_result f l).
Qed.

Section OutputProperties.

Variable basename : string -> string -> string.
Variable stringify : value -> string.

Lemma renderRoute_join (route : descriptor) (a x : document) :
  renderRoute stringify route (join_documents a x)
  = join_documents a (renderRoute stringify route x).
Proof.
  unfold renderRoute. cbv zeta.
  destruct (truthy (routeAuthentication route));
    repeat (rewrite append_body_join || rewrite append_contents_join);
    reflexivity.
Qed.

Lemma generateFile_join (a x : document) (file : string * value) :
  generateFile basename stringify (join_documents a x) file
  = (r <- generateFile basename stringify x file ;;
     Ok (join_documents a r)).
Proof.
  unfold generateFile. cbv zeta. rewrite append_contents_join.
  destruct (findExportedFunction (snd file) (JStr (fst file)))
    as [exportedFunction|e]; [|reflexivity]. cbn [bind].
  destruct (findReturnedData exportedFunction (JStr (fst file)))
    as [data|e]; [|reflexivity]. cbn [bind].
  destruct (as_array data) as [routes|e]; [|reflexivity]. cbn [bind].
  apply fold_result_shift. intros a' x' route.
  destruct (describeRoute (JStr (fst file)) route) as [d|e]; [|reflexivity].
  cbn [bind]. now rewrite renderRoute_join.
Qed.

Lemma generateFiles_join (files : list (string * value)) (a x : document) :
  fold_result (generateFile basename stringify) files (join_documents a x)
  = (r <- fold_result (generateFile basename stringify) files x ;;
     Ok (join_documents a r)).
Proof.
  apply fold_result_shift. intros a' x' file. apply generateFile_join.
Qed.

(** The document of one file, through the descriptors of its routes. *)
Lemma generateFile_described (doc : document) (filePath : string)
      (ast : value) :
  generateFile basename stringify doc (filePath, ast)
  = (descriptors <- describeFile ast (JStr filePath) ;;
     Ok (fold_left (fun doc route => renderRoute stringify route doc)
                   descriptors
                   (append_contents
                      (template [newline; "* ";
                                 getModuleName basename filePath; newline])
                      doc))).
Proof.
  unfold generateFile, describeFile, describeRoutes. cbv zeta.
  cbn [fst snd].
  destruct (findExportedFunction ast (JStr filePath))
    as [exportedFunction|e]; [|reflexivity]. cbn [bind].
  destruct (findReturnedData exportedFunction (JStr filePath))
    as [data|e]; [|reflexivity]. cbn [bind].
  destruct (as_array data) as [routes|e]; [|reflexivity]. cbn [bind].
  apply (fold_result_described (describeRoute (JStr filePath))
           (renderRoute stringify)).
Qed.

End OutputProperties.

(** X28.  The document of a list of files is the documents of its parts
    put together: the table of contents and the body of [files1 ++
    files2] are those of [files1] followed by those of [files2], and the
    first error of either aborts the whole.  What is printed for a file
    does not depend on the files before it. *)
Theorem generateOutput_append (basename : string -> string -> string)
        (stringify : value -> string) (files1 files2 : list (string * value)) :
  generateOutput basename stringify (files1 ++ files2)
  = (first_part <- generateOutput basename stringify files1 ;;
     second_part <- generateOutput basename stringify files2 ;;
     Ok (join_documents first_part second_part)).
Proof.
  unfold generateOutput. rewrite fold_result_app.
  fold empty_document.
  destruct (fold_result (generateFile basename stringify) files1
                        empty_document) as [d1|e]; [|reflexivity].
  cbn [bind]. rewrite <- (join_documents_empty d1) at 1.
  apply generateFiles_join.
Qed.

(** X29.  Nothing is printed for a file whose extraction fails.  The
    document of a file is its line in the table of contents followed by
    the printing of the descriptors of its routes, in their order, when
    all of them are extracted without error; otherwise it is the first
    error of the extraction.  So [generateOutput] returns a document only
    when every route of every file is described. *)
Theorem generateOutput_all_or_nothing
        (basename : string -> string -> string)
        (stringify : value -> string) :
  (forall doc filePath ast,
     generateFile basename stringify doc (filePath, ast)
     = (descriptors <- describeFile ast (JStr filePath) ;;
        Ok (fold_left (fun doc route => renderRoute stringify route doc)
                      descriptors
                      (append_contents
                         (template [newline; "* ";
                                    getModuleName basename filePath; newline])
                         doc)))) /\
  (forall files doc,
     generateOutput basename stringify files = Ok doc ->
     Forall (fun file =>
               exists descriptors,
                 describeFile (snd file) (JStr (fst file)) = Ok descriptors)
            files).
Proof.
  split; [apply generateFile_described|].
  unfold generateOutput. generalize {| contents := EmptyString;
                                       body := EmptyString |}.
  intros init files. revert init.
  induction files as [|[filePath ast] files IH]; intros init doc H;
    [constructor|].
  cbn [fold_result] in H. apply bind_returned in H as [acc [Hfile H]].
  constructor; [|now apply (IH acc doc)].
  rewrite generateFile_described in Hfile.
  apply bind_returned in Hfile as [descriptors [Hd _]].
  now exists descriptors.
Qed.

Lemma generateOutput_all_or_nothing_witness :
  Forall (fun file =>
            exists descriptors,
              describeFile (snd file) (JStr (fst file)) = Ok descriptors)
         [ ("lib/routes/example.js", block_file) ].
Proof.
  apply (proj2 (generateOutput_all_or_nothing
                  (fun filePath extension => "example") to_string)
               [ ("lib/routes/example.js", block_file) ]
               {| contents :=
                    template [newline; "* Example"; newline;
                              "  * [GET /foo](#get-foo)"; newline];
                  body :=
                    template [newline; "## GET /foo"; newline; newline;
                              "undefined"; newline; "undefined"; newline;
                              "undefined"; newline] |}).
  vm_compute. reflexivity.
Defined.

(* ================================================================== *)
(** * The files of the routes *)
(* ================================================================== *)

Lemma length_append (a b : string) :
  String.length (a ++ b) = String.length a + String.length b.
Proof. induction a as [|c a IH]; simpl; [reflexivity|]. now rewrite IH. Qed.

Lemma substring_all (s : string) : substring 0 (String.length s) s = s.
Proof. induction s as [|c s IH]; simpl; [reflexivity|]. now rewrite IH. Qed.

Lemma substring_after (a b : string) :
  substring (String.length a) (String.length b) (a ++ b) = b.
Proof.
  induction a as [|c a IH]; simpl; [apply substring_all|exact IH].
Qed.

Lemma substring_split (s : string) (k : nat) :
  k <= String.length s ->
  s = (substring 0 k s ++ substring k (String.length s - k) s)%string.
Proof.
  revert k. induction s as [|c s IH]; intros k Hk; simpl in *.
  - destruct k; [reflexivity|lia].
  - destruct k as [|k]; simpl.
    + now rewrite substring_all.
    + f_equal. apply IH. lia.
Qed.

Lemma endsWith_suffix (s searchString : string) :
  endsWith s searchString = true <->
  exists stem, s = (stem ++ searchString)%string.
Proof.
  unfold endsWith. rewrite andb_true_iff, Nat.leb_le, String.eqb_eq. split.
  - intros [Hl Hs].
    exists (substring 0 (String.length s - String.length searchString) s).
    pose proof (substring_split s
                  (String.length s - String.length searchString)) as H.
    replace (String.length s
             - (String.length s - String.length searchString))
      with (String.length searchString) in H by lia.
    rewrite Hs in H. apply H. lia.
  - intros [stem ->]. rewrite length_append. split; [lia|].
    replace (String.length stem + String.length searchString
             - String.length searchString)
      with (String.length stem) by lia.
    apply substring_after.
Qed.

(** X30.  The files that [parseRoutes] reads: a name of the directory is
    kept exactly when it is some stem followed by [.js] and is none of
    [defaults.js], [idp.js], [index.js] and [validators.js]. *)
Theorem isRouteFileName_spec (fileName : string) :
  isRouteFileName fileName = true <->
  (exists stem, fileName = (stem ++ ".js")%string) /\
  fileName <> "defaults.js" /\ fileName <> "idp.js" /\
  fileName <> "index.js" /\ fileName <> "validators.js".
Proof.
  unfold isRouteFileName, IGNORE. cbn [existsb].
  rewrite andb_true_iff, endsWith_suffix, negb_true_iff, !orb_false_iff,
    !String.eqb_neq.
  tauto.
Qed.
